(** * BackendForge API: a shallow embedding of [main.py] and [schemas.py]

    The development follows the source top-down: Python values and
    dictionaries, the [ObjectId] helper, [serialize_doc], the model registry
    [ModelMap], the document store behind the global handle [db], and the
    request handlers.  Theorems come after all definitions. *)

From Stdlib Require Import ZArith Ascii String List Bool Lia.
From Stdlib Require Import Floats.SpecFloat.
From stdpp Require Import base option list strings gmap fin_maps.

Local Open Scope string_scope.
Local Open Scope list_scope.
Local Set Warnings "-register-all".

(* ===================================================================== *)
(** ** Python values                                                      *)
(* ===================================================================== *)

(** [bson.ObjectId]: the identifier is its byte string ([ObjectId.binary]). *)
Record ObjectId := mkObjectId { binary : list ascii }.

(** The values a document or a JSON payload is made of.  A [dict] keeps its
    entries in insertion order, as Python does. *)
Inductive value :=
| VNone
| VBool (b : bool)
| VInt (z : Z)
| VFloat (f : spec_float)
| VStr (s : string)
| VOid (o : ObjectId)
| VList (l : list value)
| VDict (d : list (string * value)).

Abbreviation dict := (list (string * value)).

Section value_induction.
Variable P : value -> Prop.
Hypothesis HNone : P VNone.
Hypothesis HBool : forall b, P (VBool b).
Hypothesis HInt : forall z, P (VInt z).
Hypothesis HFloat : forall f, P (VFloat f).
Hypothesis HStr : forall s, P (VStr s).
Hypothesis HOid : forall o, P (VOid o).
Hypothesis HList : forall l, Forall P l -> P (VList l).
Hypothesis HDict : forall d, Forall (fun kv => P (snd kv)) d -> P (VDict d).

Fixpoint value_nested_ind (v : value) : P v :=
  match v with
  | VNone => HNone
  | VBool b => HBool b
  | VInt z => HInt z
  | VFloat f => HFloat f
  | VStr s => HStr s
  | VOid o => HOid o
  | VList l =>
      HList l ((fix go (l : list value) : Forall P l :=
                  match l with
                  | [] => @List.Forall_nil _ P
                  | x :: r => @List.Forall_cons _ P x r (value_nested_ind x) (go r)
                  end) l)
  | VDict d =>
      HDict d ((fix go (d : dict) : Forall (fun kv => P (snd kv)) d :=
                  match d with
                  | [] => @List.Forall_nil _ _
                  | kv :: r =>
                      @List.Forall_cons _ (fun kv => P (snd kv)) kv r
                        (value_nested_ind (snd kv)) (go r)
                  end) d)
  end.
End value_induction.

(* ===================================================================== *)
(** ** Dictionaries                                                       *)
(* ===================================================================== *)

(** [d.get(k)] *)
Fixpoint dict_get (k : string) (d : dict) : option value :=
  match d with
  | [] => None
  | (k', v) :: r => if String.eqb k k' then Some v else dict_get k r
  end.

(** [k in d] *)
Definition dict_mem (k : string) (d : dict) : bool :=
  match dict_get k d with Some _ => true | None => false end.

(** [d[k] = v]: an existing key keeps its position, a new key goes last. *)
Fixpoint dict_set (k : string) (v : value) (d : dict) : dict :=
  match d with
  | [] => [(k, v)]
  | (k', v') :: r =>
      if String.eqb k k' then (k', v) :: r else (k', v') :: dict_set k v r
  end.

(** [d.update(items)]: the assignments [d[k] = v] in the order of [items]. *)
Definition dict_update (d items : dict) : dict :=
  fold_left (fun out kv => dict_set (fst kv) (snd kv) out) items d.

(** The keys of a dictionary, in order. *)
Definition keys (d : dict) : list string := map fst d.

(* ===================================================================== *)
(** ** ObjectId: [str(oid)] and [ObjectId(s)]                             *)
(* ===================================================================== *)

Definition hex_digit (n : N) : ascii :=
  if (n <? 10)%N then ascii_of_N (48 + n) else ascii_of_N (87 + n).

(** [str(oid)]: two lowercase hexadecimal digits per byte. *)
Definition ObjectId_str (o : ObjectId) : string :=
  string_of_list_ascii
    (flat_map (fun b => [hex_digit (N_of_ascii b / 16);
                         hex_digit (N_of_ascii b mod 16)]) (binary o)).

Definition hex_value (c : ascii) : option N :=
  let n := N_of_ascii c in
  if ((48 <=? n) && (n <=? 57))%N then Some (n - 48)%N
  else if ((97 <=? n) && (n <=? 102))%N then Some (n - 87)%N
  else if ((65 <=? n) && (n <=? 70))%N then Some (n - 55)%N
  else None.

(** ASCII whitespace, which [bytes.fromhex] skips between two bytes. *)
Definition is_space (c : ascii) : bool :=
  let n := N_of_ascii c in
  ((n =? 32) || ((9 <=? n) && (n <=? 13)))%N.

(** [bytes.fromhex(s)] *)
Fixpoint fromhex (s : string) : option (list ascii) :=
  match s with
  | EmptyString => Some []
  | String c s' =>
      if is_space c then fromhex s'
      else match hex_value c, s' with
           | Some h, String c' s'' =>
               match hex_value c' with
               | Some l =>
                   match fromhex s'' with
                   | Some r => Some (ascii_of_N (16 * h + l) :: r)
                   | None => None
                   end
               | None => None
               end
           | _, _ => None
           end
  end.

(** [ObjectId(s)] for a string [s]: 24 characters that [bytes.fromhex]
    accepts; [None] stands for [bson.errors.InvalidId]. *)
Definition ObjectId_of_str (s : string) : option ObjectId :=
  if (String.length s =? 24)%nat then
    match fromhex s with
    | Some bs => Some (mkObjectId bs)
    | None => None
    end
  else None.

Definition ObjectId_eqb (a b : ObjectId) : bool :=
  if decide (binary a = binary b) then true else false.

(* ===================================================================== *)
(** ** [serialize_doc] (main.py, lines 50-63)                             *)
(* ===================================================================== *)

Section serialize_body.
(** [self] is the recursive call [serialize_doc(x)] on a dictionary [x],
    carried as a value. *)
Variable self : value -> value.

(** One element of a list value (the list comprehension of line 58). *)
Definition serialize_item (i : value) : value :=
  match i with
  | VDict _ => self i
  | VOid o => VStr (ObjectId_str o)
  | _ => i
  end.

(** What the loop body assigns to [out[k]] for an entry [(k, v)]. *)
Definition serialize_field (v : value) : value :=
  match v with
  | VOid o => VStr (ObjectId_str o)
  | VList l => VList (map serialize_item l)
  | VDict _ => self v
  | _ => v
  end.

Definition serialize_body (doc : dict) : dict :=
  match doc with
  | [] => doc                              (* if not doc: return doc *)
  | _ =>
      fold_left (fun out kv => dict_set (fst kv) (serialize_field (snd kv)) out)
                doc []
  end.
End serialize_body.

Fixpoint serialize_dict_value (v : value) : value :=
  match v with
  | VDict d => VDict (serialize_body serialize_dict_value d)
  | _ => v
  end.

Definition serialize_doc (doc : dict) : dict :=
  serialize_body serialize_dict_value doc.

(* ===================================================================== *)
(** ** The schemas (schemas.py)                                           *)
(* ===================================================================== *)

(** The model classes of schemas.py. *)
Inductive Model :=
| Project | ActivityLog | ColumnDef | TableDef | Relationship | ApiEndpoint
| GraphQLSchema | AuthSettings | Role | Deployment | ApiKey | TeamMember
| AnalyticsPoint.

(** [model.__name__] *)
Definition __name__ (m : Model) : string :=
  match m with
  | Project => "Project"
  | ActivityLog => "ActivityLog"
  | ColumnDef => "ColumnDef"
  | TableDef => "TableDef"
  | Relationship => "Relationship"
  | ApiEndpoint => "ApiEndpoint"
  | GraphQLSchema => "GraphQLSchema"
  | AuthSettings => "AuthSettings"
  | Role => "Role"
  | Deployment => "Deployment"
  | ApiKey => "ApiKey"
  | TeamMember => "TeamMember"
  | AnalyticsPoint => "AnalyticsPoint"
  end.

(** The annotations used in schemas.py. *)
Inductive ftype :=
| TStr | TBool | TInt | TFloat | TAny
| TLiteral (choices : list string)
| TOptional (t : ftype)
| TList (t : ftype)
| TDictStrAny
| TModel (m : Model).

(** A declared field; [field_default = None] is a required field. *)
Record Field := mkField {
  field_name : string;
  annotation : ftype;
  field_default : option value
}.

Definition required (n : string) (t : ftype) : Field := mkField n t None.
Definition optional (n : string) (t : ftype) (d : value) : Field :=
  mkField n t (Some d).

Definition on_change : ftype :=
  TLiteral ["NO ACTION"; "CASCADE"; "SET NULL"; "RESTRICT"].

(** [model.model_fields], in declaration order. *)
Definition model_fields (m : Model) : list Field :=
  match m with
  | Project =>
      [ required "name" TStr;
        optional "db_type" (TLiteral ["PostgreSQL"; "MySQL"; "MongoDB"]) (VStr "MongoDB");
        optional "region" TStr (VStr "us-east-1");
        optional "status" (TLiteral ["active"; "provisioning"; "error"]) (VStr "active") ]
  | ActivityLog =>
      [ required "project_id" TStr;
        required "action" TStr;
        optional "details" (TOptional TStr) VNone;
        optional "actor" (TOptional TStr) VNone;
        optional "level" (TLiteral ["info"; "warning"; "error"]) (VStr "info") ]
  | ColumnDef =>
      [ required "name" TStr;
        required "data_type"
          (TLiteral ["String"; "Integer"; "Boolean"; "Date"; "JSON"; "Enum"]);
        optional "primary_key" TBool (VBool false);
        optional "required" TBool (VBool false);
        optional "default_value" (TOptional TAny) VNone;
        optional "relation" (TOptional TStr) VNone;
        optional "description" (TOptional TStr) VNone ]
  | TableDef =>
      [ required "project_id" TStr;
        required "name" TStr;
        optional "description" (TOptional TStr) VNone;
        optional "columns" (TList (TModel ColumnDef)) (VList []) ]
  | Relationship =>
      [ required "project_id" TStr;
        required "name" TStr;
        required "rel_type" (TLiteral ["One-to-One"; "One-to-Many"; "Many-to-Many"]);
        required "source_table_id" TStr;
        required "target_table_id" TStr;
        optional "on_delete" on_change (VStr "NO ACTION");
        optional "on_update" on_change (VStr "NO ACTION") ]
  | ApiEndpoint =>
      [ required "project_id" TStr;
        required "method" (TLiteral ["GET"; "POST"; "PUT"; "PATCH"; "DELETE"]);
        required "url" TStr;
        optional "auth_required" TBool (VBool true);
        optional "description" (TOptional TStr) VNone ]
  | GraphQLSchema =>
      [ required "project_id" TStr;
        required "schema" TDictStrAny ]
  | AuthSettings =>
      [ required "project_id" TStr;
        optional "jwt_enabled" TBool (VBool true);
        optional "oauth_google" TBool (VBool false);
        optional "oauth_github" TBool (VBool false);
        optional "oauth_microsoft" TBool (VBool false) ]
  | Role =>
      [ required "project_id" TStr;
        required "name" TStr;
        optional "description" (TOptional TStr) VNone;
        optional "permissions" (TList TStr) (VList []) ]
  | Deployment =>
      [ required "project_id" TStr;
        required "environment" (TLiteral ["Dev"; "QA"; "Production"]);
        optional "status" (TLiteral ["Success"; "Pending"; "Failed"]) (VStr "Pending");
        optional "logs" (TOptional TStr) VNone ]
  | ApiKey =>
      [ required "project_id" TStr;
        required "name" TStr;
        required "key" TStr ]
  | TeamMember =>
      [ required "project_id" TStr;
        required "name" TStr;
        required "role" TStr;
        optional "status" (TLiteral ["invited"; "active"; "removed"]) (VStr "invited") ]
  | AnalyticsPoint =>
      [ required "project_id" TStr;
        required "metric" (TLiteral ["api_usage"; "response_time"; "error_rate"]);
        required "timestamp" TInt;
        required "value" TFloat ]
  end.

(** [k in model.model_fields] *)
Definition is_model_field (m : Model) (k : string) : bool :=
  existsb (fun f => String.eqb k (field_name f)) (model_fields m).

(* ===================================================================== *)
(** ** Model construction: a model class called with keyword arguments   *)
(* ===================================================================== *)

(** Validation is done by pydantic, outside the repository.  Its rules are
    written out here for the annotations of schemas.py and for values that
    come from a JSON body: a required field must be present, an absent field
    takes its default, keyword arguments that are not fields are ignored, and
    each supplied value must fit the annotation.  pydantic would also read a
    number out of a numeric string; that conversion is left out, and no
    statement below depends on it. *)

Definition to_lower (c : ascii) : ascii :=
  let n := N_of_ascii c in
  if ((65 <=? n) && (n <=? 90))%N then ascii_of_N (n + 32) else c.

(** [s.lower()] *)
Fixpoint lower (s : string) : string :=
  match s with
  | EmptyString => EmptyString
  | String c r => String (to_lower c) (lower r)
  end.

Definition str_in (s : string) (l : list string) : bool :=
  existsb (String.eqb s) l.

Definition float_of_int (z : Z) : spec_float := binary_normalize 53 1024 z 0 false.

Definition int_of_float (f : spec_float) : option Z :=
  match f with
  | S754_zero _ => Some 0%Z
  | S754_finite s m e =>
      let n := if s then Z.neg m else Z.pos m in
      if (0 <=? e)%Z then Some (n * 2 ^ e)%Z
      else if (n mod 2 ^ (- e) =? 0)%Z then Some (n / 2 ^ (- e))%Z
      else None
  | _ => None
  end.

Definition validate_bool (v : value) : option value :=
  match v with
  | VBool b => Some (VBool b)
  | VInt 0 => Some (VBool false)
  | VInt 1 => Some (VBool true)
  | VFloat f =>
      match int_of_float f with
      | Some 0%Z => Some (VBool false)
      | Some 1%Z => Some (VBool true)
      | _ => None
      end
  | VStr s =>
      if str_in (lower s) ["1"; "on"; "t"; "true"; "y"; "yes"] then Some (VBool true)
      else if str_in (lower s) ["0"; "off"; "f"; "false"; "n"; "no"] then Some (VBool false)
      else None
  | _ => None
  end.

Definition validate_int (v : value) : option value :=
  match v with
  | VInt z => Some (VInt z)
  | VBool b => Some (VInt (if b then 1 else 0))
  | VFloat f => option_map VInt (int_of_float f)
  | _ => None
  end.

Definition validate_float (v : value) : option value :=
  match v with
  | VFloat f => Some (VFloat f)
  | VInt z => Some (VFloat (float_of_int z))
  | VBool b => Some (VFloat (float_of_int (if b then 1 else 0)))
  | _ => None
  end.

(** All elements of a list validated, [None] as soon as one fails. *)
Fixpoint validate_all (f : value -> option value) (l : list value) : option (list value) :=
  match l with
  | [] => Some []
  | x :: r =>
      match f x, validate_all f r with
      | Some y, Some r' => Some (y :: r')
      | _, _ => None
      end
  end.

Section construct.
(** Construction of a model that occurs as the annotation of a field. *)
Variable nested : Model -> dict -> option dict.

Fixpoint validate (t : ftype) (v : value) : option value :=
  match t with
  | TStr => match v with VStr s => Some (VStr s) | _ => None end
  | TBool => validate_bool v
  | TInt => validate_int v
  | TFloat => validate_float v
  | TAny => Some v
  | TLiteral choices =>
      match v with
      | VStr s => if str_in s choices then Some (VStr s) else None
      | _ => None
      end
  | TOptional t' =>
      match v with VNone => Some VNone | _ => validate t' v end
  | TList t' =>
      match v with
      | VList l => option_map VList (validate_all (validate t') l)
      | _ => None
      end
  | TDictStrAny =>
      match v with VDict d => Some (VDict d) | _ => None end
  | TModel m =>
      match v with
      | VDict d => option_map VDict (nested m d)
      | _ => None
      end
  end.

(** The fields of the instance, or the name of the first field that is
    missing or does not validate. *)
Fixpoint construct_fields (fs : list Field) (kwargs : dict) : string + dict :=
  match fs with
  | [] => inr []
  | f :: r =>
      let field :=
        match dict_get (field_name f) kwargs with
        | Some v => validate (annotation f) v
        | None => field_default f
        end in
      match field with
      | None => inl (field_name f)
      | Some v =>
          match construct_fields r kwargs with
          | inl e => inl e
          | inr d => inr ((field_name f, v) :: d)
          end
      end
  end.
End construct.

Definition no_nested : Model -> dict -> option dict := fun _ _ => None.

(** A model of schemas.py nests at most one model ([TableDef] holds
    [ColumnDef]s, which hold none). *)
Definition construct_nested (m : Model) (kwargs : dict) : option dict :=
  match construct_fields no_nested (model_fields m) kwargs with
  | inr d => Some d
  | inl _ => None
  end.

(** The model class [m] called with the entries of [kwargs] as keyword
    arguments, given as the instance's [model_dump()]; [inl] is a
    [ValidationError] on the named field. *)
Definition construct (m : Model) (kwargs : dict) : string + dict :=
  construct_fields construct_nested (model_fields m) kwargs.

(* ===================================================================== *)
(** ** The registry (main.py, lines 66-83)                                *)
(* ===================================================================== *)

Definition ModelMap : list (string * Model) :=
  [ ("projects", Project);
    ("tables", TableDef);
    ("relationships", Relationship);
    ("api-endpoints", ApiEndpoint);
    ("graphql-schemas", GraphQLSchema);
    ("auth-settings", AuthSettings);
    ("roles", Role);
    ("deployments", Deployment);
    ("api-keys", ApiKey);
    ("team-members", TeamMember);
    ("activity", ActivityLog);
    ("analytics", AnalyticsPoint) ].

(** [ModelMap[resource]], [None] when [resource not in ModelMap]. *)
Fixpoint ModelMap_get (resource : string) (m : list (string * Model)) : option Model :=
  match m with
  | [] => None
  | (k, v) :: r => if String.eqb resource k then Some v else ModelMap_get resource r
  end.

Definition collection_name (model : Model) : string := lower (__name__ model).

(* ===================================================================== *)
(** ** The document store                                                 *)
(* ===================================================================== *)

(** The store keeps, for each collection name, its documents in insertion
    order, and hands out identifiers from a counter. *)
Record Store := mkStore {
  collections : gmap string (list dict);
  next_oid : N
}.

(** [db[name]]: the documents of a collection; a collection never written
    to is empty. *)
Definition coll (st : Store) (name : string) : list dict :=
  default [] (collections st !! name).

Definition set_coll (st : Store) (name : string) (docs : list dict) : Store :=
  mkStore (<[name := docs]> (collections st)) (next_oid st).

(** The [n] low bytes of [x], most significant first. *)
Fixpoint bytes_be (n : nat) (x : N) : list ascii :=
  match n with
  | O => []
  | S n' => bytes_be n' (x / 256) ++ [ascii_of_N (x mod 256)]
  end.

(** A new 12-byte identifier. *)
Definition fresh_oid (st : Store) : ObjectId := mkObjectId (bytes_be 12 (next_oid st)).

Definition sf_eqb (a b : spec_float) : bool :=
  match a, b with
  | S754_zero s, S754_zero s' => Bool.eqb s s'
  | S754_infinity s, S754_infinity s' => Bool.eqb s s'
  | S754_nan, S754_nan => true
  | S754_finite s m e, S754_finite s' m' e' =>
      Bool.eqb s s' && Pos.eqb m m' && Z.eqb e e'
  | _, _ => false
  end.

Fixpoint value_eqb (a b : value) : bool :=
  match a, b with
  | VNone, VNone => true
  | VBool x, VBool y => Bool.eqb x y
  | VInt x, VInt y => Z.eqb x y
  | VFloat x, VFloat y => sf_eqb x y
  | VStr x, VStr y => String.eqb x y
  | VOid x, VOid y => ObjectId_eqb x y
  | VList l, VList l' =>
      (fix go (l l' : list value) : bool :=
         match l, l' with
         | [], [] => true
         | x :: r, y :: r' => value_eqb x y && go r r'
         | _, _ => false
         end) l l'
  | VDict d, VDict d' =>
      (fix go (d d' : dict) : bool :=
         match d, d' with
         | [], [] => true
         | kx :: r, ky :: r' =>
             String.eqb (fst kx) (fst ky) && value_eqb (snd kx) (snd ky) && go r r'
         | _, _ => false
         end) d d'
  | _, _ => false
  end.

(** A document matches a filter when every field of the filter is in the
    document with that very value. *)
Definition matches (filt : dict) (d : dict) : bool :=
  forallb (fun kv => match dict_get (fst kv) d with
                     | Some v => value_eqb v (snd kv)
                     | None => false
                     end) filt.

(** The filter [{"_id": oid}]. *)
Definition has_id (oid : ObjectId) (d : dict) : bool :=
  match dict_get "_id" d with
  | Some (VOid o) => ObjectId_eqb o oid
  | _ => false
  end.

(** [insert_one]: the document gets a new [_id] and goes last. *)
Definition insert_one (st : Store) (name : string) (d : dict) : ObjectId * Store :=
  let oid := fresh_oid st in
  (oid, mkStore (<[name := coll st name ++ [("_id", VOid oid) :: d]]> (collections st))
                (next_oid st + 1)).

(** [find] *)
Definition find (st : Store) (name : string) (filt : dict) : list dict :=
  filter (fun d => matches filt d = true) (coll st name).

(** The first document that satisfies [p] replaced by its image under [f];
    [None] when there is none. *)
Fixpoint update_first (p : dict -> bool) (f : dict -> dict) (l : list dict)
  : option (list dict) :=
  match l with
  | [] => None
  | d :: r =>
      if p d then Some (f d :: r)
      else match update_first p f r with
           | Some r' => Some (d :: r')
           | None => None
           end
  end.

(** The first document that satisfies [p] removed. *)
Fixpoint delete_first (p : dict -> bool) (l : list dict) : option (list dict) :=
  match l with
  | [] => None
  | d :: r =>
      if p d then Some r
      else match delete_first p r with
           | Some r' => Some (d :: r')
           | None => None
           end
  end.

(** [update_one({"_id": oid}, {"$set": fields})]: the fields are written
    over those of the first document with that [_id]; the result is
    [matched_count]. *)
Definition update_one (st : Store) (name : string) (oid : ObjectId) (fields : dict)
  : nat * Store :=
  match update_first (has_id oid) (fun d => dict_update d fields) (coll st name) with
  | Some docs => (1%nat, set_coll st name docs)
  | None => (0%nat, st)
  end.

(** [delete_one({"_id": oid})]; the result is [deleted_count]. *)
Definition delete_one (st : Store) (name : string) (oid : ObjectId) : nat * Store :=
  match delete_first (has_id oid) (coll st name) with
  | Some docs => (1%nat, set_coll st name docs)
  | None => (0%nat, st)
  end.

(* ===================================================================== *)
(** ** Handlers as computations over the global [db]                      *)
(* ===================================================================== *)

Inductive exn :=
| HTTPException (status_code : Z) (detail : string)
| ValueError (msg : string)
| ValidationError (field : string)
| StoreUnavailable.

(** The module-level [db]: [None] when the store was never connected. *)
Abbreviation handle := (option Store).

(** A computation reads and writes [db] and returns or raises. *)
Definition io (A : Type) : Type := handle -> (exn + A) * handle.

Definition ret {A} (a : A) : io A := fun db => (inr a, db).
Definition raise {A} (e : exn) : io A := fun db => (inl e, db).
Definition bind {A B} (c : io A) (k : A -> io B) : io B :=
  fun db =>
    match c db with
    | (inr a, db') => k a db'
    | (inl e, db') => (inl e, db')
    end.

Declare Scope io_scope.
Delimit Scope io_scope with io.
Notation "x <- c ;; k" := (bind c (fun x => k))
  (at level 100, c at next level, right associativity) : io_scope.
Notation "c ;; k" := (bind c (fun _ => k))
  (at level 100, right associativity) : io_scope.
Local Open Scope io_scope.

(** [try: c  except Exception: pass] *)
Definition try_pass {A} (c : io A) : io unit :=
  fun db => (inr tt, snd (c db)).

(** [for x in l: body(x)] *)
Fixpoint for_each {A} (l : list A) (body : A -> io unit) : io unit :=
  match l with
  | [] => ret tt
  | x :: r => body x ;; for_each r body
  end.

(** A model called in a handler: a failed validation is raised. *)
Definition new (m : Model) (kwargs : dict) : io dict :=
  match construct m kwargs with
  | inr obj => ret obj
  | inl field => raise (ValidationError field)
  end.

(** [StrObjectId.validate(v)] for a string [v] (main.py, lines 41-48). *)
Definition StrObjectId_validate (v : string) : io ObjectId :=
  match ObjectId_of_str v with
  | Some o => ret o
  | None => raise (ValueError "Invalid ObjectId")
  end.

(** Modelled from the spec: [create_document] of the [database] module,
    which is not among the sources.  The adapter's insert "stores a record
    with declared fields", "returns new id" and "surfaces a store-unavailable
    error if the underlying store is not connected". *)
Definition create_document (collection : string) (data : dict) : io string :=
  fun db =>
    match db with
    | None => (inl StoreUnavailable, db)
    | Some st =>
        let (oid, st') := insert_one st collection data in
        (inr (ObjectId_str oid), Some st')
    end.

(** Modelled from the spec: [get_documents] of the [database] module, which
    is not among the sources.  The adapter's find takes "an exact-match
    conjunction over field values", "empty filter returns all records in the
    collection", and it "returns an empty sequence (not an error) when the
    store is unavailable". *)
Definition get_documents (collection : string) (filt : dict) : io (list dict) :=
  fun db =>
    match db with
    | None => (inr [], db)
    | Some st => (inr (find st collection filt), db)
    end.

(** [db is None] *)
Definition db_is_None : io bool :=
  fun db => (inr (match db with None => true | Some _ => false end), db).

(** [db[name].update_one(...)] and [db[name].delete_one(...)], called only
    after [db is None] has been ruled out. *)
Definition db_update_one (name : string) (oid : ObjectId) (fields : dict) : io nat :=
  fun db =>
    match db with
    | None => (inl StoreUnavailable, db)
    | Some st => let (n, st') := update_one st name oid fields in (inr n, Some st')
    end.

Definition db_delete_one (name : string) (oid : ObjectId) : io nat :=
  fun db =>
    match db with
    | None => (inl StoreUnavailable, db)
    | Some st => let (n, st') := delete_one st name oid in (inr n, Some st')
    end.

Definition status_ok : dict := [("status", VStr "ok")].

(** [create_project] (main.py, lines 125-132).  [payload] is the
    [model_dump()] of the [Project] the framework built from the body. *)
Definition create_project (payload : dict) : io dict :=
  _id <- create_document (collection_name Project) payload ;;
  a <- new AuthSettings [("project_id", VStr _id)] ;;
  create_document (collection_name AuthSettings) a ;;
  for_each ["Dev"; "QA"; "Production"] (fun env =>
    d <- new Deployment [("project_id", VStr _id); ("environment", VStr env)] ;;
    create_document (collection_name Deployment) d ;;
    ret tt) ;;
  ret [("id", VStr _id)].

(** [delete_project] (main.py, lines 134-142). *)
Definition delete_project (project_id : string) : io dict :=
  none <- db_is_None ;;
  if none : bool then raise (HTTPException 500 "Database not available")
  else
    oid <- StrObjectId_validate project_id ;;
    deleted_count <- db_delete_one (collection_name Project) oid ;;
    if Nat.eqb deleted_count 0 then raise (HTTPException 404 "Project not found")
    else ret status_ok.

(** [project_id if project_id else ...]: [None] and the empty string are
    falsy. *)
Definition truthy (project_id : option string) : bool :=
  match project_id with
  | None => false
  | Some EmptyString => false
  | Some _ => true
  end.

(** [list_by_project] (main.py, lines 149-157). *)
Definition list_by_project (resource : string) (project_id : option string)
  : io (list dict) :=
  match ModelMap_get resource ModelMap with
  | None => raise (HTTPException 404 "Unknown resource")
  | Some model =>
      none <- db_is_None ;;
      if none : bool then ret []
      else
        let filt :=
          match project_id with
          | Some p => if truthy project_id then [("project_id", VStr p)] else []
          | None => []
          end in
        docs <- get_documents (collection_name model) filt ;;
        ret (map serialize_doc docs)
  end.

(** [create_item] (main.py, lines 159-169).  The 422 detail is the text of
    pydantic's error; here it is the name of the offending field. *)
Definition create_item (resource : string) (payload : dict) : io string :=
  match ModelMap_get resource ModelMap with
  | None => raise (HTTPException 404 "Unknown resource")
  | Some model =>
      match construct model payload with
      | inl e => raise (HTTPException 422 e)
      | inr obj =>
          _id <- create_document (collection_name model) obj ;;
          ret _id
      end
  end.

(** [update_item] (main.py, lines 171-188). *)
Definition update_item (resource item_id : string) (payload : dict) : io dict :=
  match ModelMap_get resource ModelMap with
  | None => raise (HTTPException 404 "Unknown resource")
  | Some model =>
      none <- db_is_None ;;
      if none : bool then raise (HTTPException 500 "Database not available")
      else
        try_pass (new model (filter (fun kv => is_model_field model (fst kv) = true) payload)) ;;
        oid <- StrObjectId_validate item_id ;;
        matched_count <- db_update_one (collection_name model) oid payload ;;
        if Nat.eqb matched_count 0 then raise (HTTPException 404 "Item not found")
        else ret status_ok
  end.

(** [delete_item] (main.py, lines 190-199). *)
Definition delete_item (resource item_id : string) : io dict :=
  match ModelMap_get resource ModelMap with
  | None => raise (HTTPException 404 "Unknown resource")
  | Some model =>
      none <- db_is_None ;;
      if none : bool then raise (HTTPException 500 "Database not available")
      else
        oid <- StrObjectId_validate item_id ;;
        deleted_count <- db_delete_one (collection_name model) oid ;;
        if Nat.eqb deleted_count 0 then raise (HTTPException 404 "Item not found")
        else ret status_ok
  end.

(** The two POST routes, [/projects] (line 125) and [/{resource}]
    (line 159): a request goes to the first declared route whose path
    matches, so [POST /projects] is served by [create_project], with the
    body validated against [Project] by the framework, and every other
    name by [create_item], whose answer is the [IdResponse]. *)
Definition post (resource : string) (body : dict) : io dict :=
  if String.eqb resource "projects" then
    match construct Project body with
    | inl field => raise (HTTPException 422 field)
    | inr payload => create_project payload
    end
  else
    _id <- create_item resource body ;;
    ret [("id", VStr _id)].

(* ===================================================================== *)
(** ** Root and health (main.py, lines 86-117)                            *)
(* ===================================================================== *)

(** [read_root] *)
Definition read_root : io dict :=
  ret [("message", VStr "BackendForge API running")].

(** [health] *)
Definition health : io dict :=
  none <- db_is_None ;;
  ret [("status", VStr (if none : bool then "error" else "ok"))].

(** [s[:n]] on a string *)
Definition str_prefix (n : nat) (s : string) : string := String.substring 0 n s.

(** [test_database].  [getenv] is the process environment, and
    [list_collection_names] the answer of the driver to
    [db.list_collection_names()]: the names, or the text of the exception it
    raises.  Nothing in the outer [try] can raise, so its handler is not
    reached. *)
Definition test_database (getenv : string -> option string)
    (list_collection_names : Store -> string + list string) : io dict :=
  fun db =>
    let response : dict :=
      [ ("backend", VStr "✅ Running");
        ("database", VStr "❌ Not Available");
        ("database_url",
         VStr (if truthy (getenv "DATABASE_URL") then "✅ Set" else "❌ Not Set"));
        ("database_name",
         VStr (if truthy (getenv "DATABASE_NAME") then "✅ Set" else "❌ Not Set"));
        ("connection_status", VStr "Not Connected");
        ("collections", VList []) ] in
    let response :=
      match db with
      | None => response
      | Some st =>
          let response := dict_set "database" (VStr "✅ Available") response in
          let response := dict_set "connection_status" (VStr "Connected") response in
          match list_collection_names st with
          | inr collections =>
              let response :=
                dict_set "collections" (VList (map VStr (take 20 collections)))
                         response in
              dict_set "database" (VStr "✅ Connected & Working") response
          | inl e =>
              dict_set "database"
                       (VStr ("⚠️  Connected but Error: " ++ str_prefix 80 e))
                       response
          end
      end in
    (inr response, db).

(* ===================================================================== *)
(** ** Vocabulary of the statements                                       *)
(* ===================================================================== *)

(** The entry the loop of [serialize_doc] writes for an entry of [doc]. *)
Definition serialized_entry (kv : string * value) : string * value :=
  (fst kv, serialize_field serialize_dict_value (snd kv)).

(** An [ObjectId] occurs somewhere in the value. *)
Fixpoint contains_oid (v : value) : bool :=
  match v with
  | VOid _ => true
  | VList l => existsb contains_oid l
  | VDict d => existsb (fun kv => contains_oid (snd kv)) d
  | _ => false
  end.

Definition is_list (v : value) : bool :=
  match v with VList _ => true | _ => false end.

(** No list is an element of a list, at any depth. *)
Fixpoint lists_are_flat (v : value) : bool :=
  match v with
  | VList l => forallb (fun i => negb (is_list i) && lists_are_flat i) l
  | VDict d => forallb (fun kv => lists_are_flat (snd kv)) d
  | _ => true
  end.

(** The two ways the store being unavailable reaches the caller: the
    handlers' own 500, and the error of the adapter's insert. *)
Definition store_unavailable (e : exn) : bool :=
  match e with
  | HTTPException code detail =>
      (code =? 500)%Z && String.eqb detail "Database not available"
  | StoreUnavailable => true
  | _ => false
  end.

Definition signals_store_unavailable {A} (r : exn + A) : bool :=
  match r with inl e => store_unavailable e | inr _ => false end.

Definition not_found {A} (r : exn + A) : bool :=
  match r with
  | inl (HTTPException code _) => (code =? 404)%Z
  | _ => false
  end.

(** A value as Python builds it: the keys of every dictionary in it are
    pairwise distinct. *)
Fixpoint well_formed (v : value) : bool :=
  match v with
  | VList l => forallb well_formed l
  | VDict d =>
      bool_decide (NoDup (map fst d)) && forallb (fun kv => well_formed (snd kv)) d
  | _ => true
  end.

(** The document's [project_id] is the string [p]. *)
Definition has_project (p : string) (d : dict) : bool :=
  match dict_get "project_id" d with
  | Some (VStr s) => String.eqb s p
  | _ => false
  end.

(** A failed call hands [db] back as it was. *)
Definition untouched_on_error {A} (c : io A) (db : handle) : Prop :=
  match c db with
  | (inl _, db') => db' = db
  | (inr _, _) => True
  end.

(** A driver that answers with the names of the collections written so
    far, and one that fails. *)
Definition sample_names (st : Store) : string + list string :=
  inr (map fst (map_to_list (collections st))).

Definition sample_driver_error (st : Store) : string + list string :=
  inl "connection refused".

Definition sample_getenv (name : string) : option string :=
  if String.eqb name "DATABASE_URL" then Some "mongodb://localhost" else None.

(** *** What [create_project] writes *)

(** The instance [AuthSettings(project_id=_id)]. *)
Definition default_auth_settings (project_id : string) : dict :=
  [("project_id", VStr project_id); ("jwt_enabled", VBool true);
   ("oauth_google", VBool false); ("oauth_github", VBool false);
   ("oauth_microsoft", VBool false)].

(** The instance [Deployment(project_id=_id, environment=env)]. *)
Definition pending_deployment (project_id env : string) : dict :=
  [("project_id", VStr project_id); ("environment", VStr env);
   ("status", VStr "Pending"); ("logs", VNone)].

(** The store after [create_project]. *)
Definition seeded (st : Store) (payload : dict) : Store :=
  let pid := ObjectId_str (fresh_oid st) in
  let st1 := snd (insert_one st "project" payload) in
  let st2 := snd (insert_one st1 "authsettings" (default_auth_settings pid)) in
  let st3 := snd (insert_one st2 "deployment" (pending_deployment pid "Dev")) in
  let st4 := snd (insert_one st3 "deployment" (pending_deployment pid "QA")) in
  snd (insert_one st4 "deployment" (pending_deployment pid "Production")).

(** *** Sample data *)

Definition sample_oid (n : N) : ObjectId := mkObjectId (bytes_be 12 n).

Definition sample_project : dict :=
  [("_id", VOid (sample_oid 1)); ("name", VStr "Shop"); ("db_type", VStr "PostgreSQL");
   ("region", VStr "us-east-1"); ("status", VStr "active")].

Definition sample_table : dict :=
  [("_id", VOid (sample_oid 2)); ("project_id", VStr "000000000000000000000001");
   ("name", VStr "users"); ("description", VNone); ("columns", VList [])].

Definition sample_deployment (n : N) (project_id env : string) : dict :=
  [("_id", VOid (sample_oid n)); ("project_id", VStr project_id);
   ("environment", VStr env); ("status", VStr "Pending"); ("logs", VNone)].

(** One project with a table and deployments, and a deployment whose
    [project_id] is the empty string. *)
Definition sample_store : Store :=
  mkStore
    (<["project" := [sample_project]]>
       (<["tabledef" := [sample_table]]>
          (<["deployment" :=
               [sample_deployment 3 "000000000000000000000001" "Dev";
                sample_deployment 4 "000000000000000000000001" "QA";
                sample_deployment 5 "" "Production"]]> ∅)))
    6.

(** A body for [POST /tables] that validates. *)
Definition sample_new_table : dict :=
  [("project_id", VStr "000000000000000000000001"); ("name", VStr "orders")].

(** The instance built from it. *)
Definition sample_new_table_instance : dict :=
  [("project_id", VStr "000000000000000000000001"); ("name", VStr "orders");
   ("description", VNone); ("columns", VList [])].

(** A body for [PUT /tables/{id}]: [name] is not a string, and [owner] is
    not a field of [TableDef]. *)
Definition sample_payload : dict :=
  [("project_id", VStr "000000000000000000000001"); ("name", VInt 5);
   ("owner", VStr "ops")].

(* ===================================================================== *)
(** * Properties                                                          *)
(* ===================================================================== *)

(** ** Dictionaries *)

Lemma dict_set_fresh k v (d : dict) :
  k ∉ keys d -> dict_set k v d = d ++ [(k, v)].
Proof.
  induction d as [|[k' v'] r IH]; simpl; intros Hk; [done|].
  apply not_elem_of_cons in Hk as [Hne Hr].
  destruct (String.eqb_spec k k') as [->|_]; [done|].
  by rewrite IH.
Qed.

Lemma keys_dict_set_present k v (d : dict) :
  k ∈ keys d -> keys (dict_set k v d) = keys d.
Proof.
  induction d as [|[k' v'] r IH]; simpl; intros Hk.
  - by apply elem_of_nil in Hk.
  - destruct (String.eqb_spec k k') as [->|Hne]; [done|].
    apply elem_of_cons in Hk as [?|Hk]; [done|].
    simpl. by rewrite IH.
Qed.

Lemma NoDup_keys_dict_set k v (d : dict) :
  NoDup (keys d) -> NoDup (keys (dict_set k v d)).
Proof.
  intros Hd. destruct (decide (k ∈ keys d)) as [Hin|Hout].
  - by rewrite keys_dict_set_present.
  - rewrite dict_set_fresh by done. unfold keys. rewrite map_app. simpl.
    apply NoDup_app. split; [done|]. split.
    + intros x Hx Hx'. apply list_elem_of_singleton in Hx'. by subst.
    + apply NoDup_singleton.
Qed.

Lemma elem_of_dict_set kv k v (d : dict) :
  kv ∈ dict_set k v d -> kv = (k, v) \/ kv ∈ d.
Proof.
  induction d as [|[k' v'] r IH]; simpl.
  - intros H. apply list_elem_of_singleton in H. by left.
  - destruct (String.eqb_spec k k') as [->|Hne]; intros H.
    + apply elem_of_cons in H as [->|H]; [by left|].
      right. by apply elem_of_cons; right.
    + apply elem_of_cons in H as [->|H].
      * right. by apply elem_of_cons; left.
      * destruct (IH H) as [?|?]; [by left|].
        right. by apply elem_of_cons; right.
Qed.

Lemma NoDup_keys_dict_update (items d : dict) :
  NoDup (keys d) -> NoDup (keys (dict_update d items)).
Proof.
  unfold dict_update. revert d.
  induction items as [|[k v] r IH]; simpl; intros d Hd; [done|].
  apply IH. by apply NoDup_keys_dict_set.
Qed.

Lemma elem_of_dict_update kv (items d : dict) :
  kv ∈ dict_update d items -> kv ∈ d \/ kv ∈ items.
Proof.
  unfold dict_update. revert d.
  induction items as [|[k v] r IH]; simpl; intros d H; [by left|].
  destruct (IH _ H) as [H'|H'].
  - apply elem_of_dict_set in H' as [->|H'].
    + right. by apply elem_of_cons; left.
    + by left.
  - right. by apply elem_of_cons; right.
Qed.

(** Writing entries with new, pairwise distinct keys appends them. *)
Lemma dict_update_fresh (items d : dict) :
  NoDup (keys (d ++ items)) -> dict_update d items = d ++ items.
Proof.
  unfold dict_update. revert d.
  induction items as [|[k v] r IH]; simpl; intros d Hd.
  - by rewrite app_nil_r.
  - assert (Hk : k ∉ keys d).
    { unfold keys in Hd. rewrite map_app in Hd. simpl in Hd.
      apply NoDup_app in Hd as (_ & Hd & _).
      intros Hin. apply (Hd k Hin). by apply elem_of_cons; left. }
    rewrite dict_set_fresh by done.
    rewrite IH; rewrite <- app_assoc; simpl; done.
Qed.

(** ** The serializer *)

Lemma serialize_doc_update (doc : dict) :
  serialize_doc doc = dict_update [] (map serialized_entry doc).
Proof.
  unfold serialize_doc, serialize_body, dict_update.
  destruct doc as [|kv r]; [done|].
  generalize (@nil (string * value)). generalize (kv :: r).
  induction l as [|x l IH]; simpl; intros acc; [done|].
  by rewrite IH.
Qed.

Lemma keys_serialized (d : dict) : keys (map serialized_entry d) = keys d.
Proof. unfold keys. rewrite map_map. by apply map_ext. Qed.

(** On a dictionary (its keys are distinct) the loop rewrites each value in
    place. *)
Lemma serialize_doc_map (doc : dict) :
  NoDup (keys doc) -> serialize_doc doc = map serialized_entry doc.
Proof.
  intros Hd. rewrite serialize_doc_update.
  rewrite dict_update_fresh; [done|]. simpl. by rewrite keys_serialized.
Qed.

Lemma NoDup_keys_serialize_doc (doc : dict) : NoDup (keys (serialize_doc doc)).
Proof.
  rewrite serialize_doc_update. apply NoDup_keys_dict_update. apply NoDup_nil_2.
Qed.

Lemma elem_of_serialize_doc kv (doc : dict) :
  kv ∈ serialize_doc doc -> exists kv0, kv0 ∈ doc /\ kv = serialized_entry kv0.
Proof.
  rewrite serialize_doc_update. intros H.
  apply elem_of_dict_update in H as [H|H].
  - by apply elem_of_nil in H.
  - apply list_elem_of_fmap in H as (kv0 & -> & H0). eauto.
Qed.

Lemma serialize_field_dict (d : dict) :
  serialize_field serialize_dict_value (VDict d) = VDict (serialize_doc d).
Proof. reflexivity. Qed.

Lemma serialize_item_dict (d : dict) :
  serialize_item serialize_dict_value (VDict d) = VDict (serialize_doc d).
Proof. reflexivity. Qed.

(** The rewriting of one value is idempotent. *)
Lemma serialize_field_idem (v : value) :
  serialize_field serialize_dict_value (serialize_field serialize_dict_value v)
  = serialize_field serialize_dict_value v.
Proof.
  induction v as [| | | | | |l IH|d IH] using value_nested_ind; try reflexivity.
  - simpl. f_equal. rewrite map_map. apply map_ext_in.
    intros i Hi. rewrite Forall_forall in IH.
    apply list_elem_of_In in Hi. specialize (IH i Hi).
    destruct i; try reflexivity. exact IH.
  - rewrite !serialize_field_dict. f_equal.
    rewrite (serialize_doc_map (serialize_doc d)) by apply NoDup_keys_serialize_doc.
    rewrite <- (map_id (serialize_doc d)) at 2.
    apply map_ext_in. intros kv Hkv. apply list_elem_of_In in Hkv.
    apply elem_of_serialize_doc in Hkv as (kv0 & H0 & ->).
    rewrite Forall_forall in IH. specialize (IH kv0 H0).
    unfold serialized_entry. simpl. by rewrite IH.
Qed.

(** C7. The serializer is idempotent: for every document [d],
    [serialize_doc (serialize_doc d) = serialize_doc d]. *)
Theorem serialize_doc_idempotent (d : dict) :
  serialize_doc (serialize_doc d) = serialize_doc d.
Proof.
  pose proof (serialize_field_idem (VDict d)) as H.
  rewrite !serialize_field_dict in H. by injection H.
Qed.

(** An identifier inside a list that is itself an element of a list is not
    reached by [serialize_doc]: the comprehension of line 58 converts the
    elements that are identifiers and recurses into those that are
    dictionaries, and passes every other element, a list included, as it
    is. *)
Lemma serialize_doc_list_in_list (k : string) (o : ObjectId) :
  serialize_doc [(k, VList [VList [VOid o]])] = [(k, VList [VList [VOid o]])].
Proof. reflexivity. Qed.

(** Apart from that case the serializer does what it is for: when no list is
    an element of a list, no identifier is left in the output. *)
Lemma serialize_field_no_oid (v : value) :
  lists_are_flat v = true ->
  contains_oid (serialize_field serialize_dict_value v) = false.
Proof.
  induction v as [| | | | | |l IH|d IH] using value_nested_ind;
    intros Hflat; try reflexivity.
  - simpl in *. apply not_true_is_false. intros Hex.
    apply existsb_exists in Hex as (j & Hj & Hoid).
    apply in_map_iff in Hj as (i & <- & Hi).
    rewrite forallb_forall in Hflat. specialize (Hflat i Hi).
    apply andb_true_iff in Hflat as [Hnl Hfl].
    rewrite Forall_forall in IH. apply list_elem_of_In in Hi.
    specialize (IH i Hi Hfl).
    destruct i; simpl in *; congruence.
  - rewrite serialize_field_dict. simpl in *. apply not_true_is_false.
    intros Hex. apply existsb_exists in Hex as (kv & Hkv & Hoid).
    apply list_elem_of_In in Hkv.
    apply elem_of_serialize_doc in Hkv as (kv0 & H0 & ->).
    rewrite forallb_forall in Hflat.
    rewrite Forall_forall in IH. specialize (IH kv0 H0).
    apply list_elem_of_In in H0. specialize (Hflat kv0 H0).
    simpl in Hoid. rewrite IH in Hoid; done.
Qed.

(** C6. The claim that every identifier is replaced at any nesting depth
    fails on the code: in the document [{"tags": [[oid]]}] the identifier
    sits in a list inside a list, and the serialized document still holds
    it. *)
Theorem serialize_doc_misses_nested_list :
  let oid := mkObjectId (bytes_be 12 1) in
  let doc := [("tags", VList [VList [VOid oid]])] in
  serialize_doc doc = doc /\ contains_oid (VDict (serialize_doc doc)) = true.
Proof. split; reflexivity. Qed.

(** ** The store *)

Lemma coll_set_coll_eq st name docs : coll (set_coll st name docs) name = docs.
Proof. unfold coll, set_coll. simpl. by rewrite lookup_insert_eq. Qed.

Lemma coll_set_coll_ne st name name' docs :
  name <> name' -> coll (set_coll st name docs) name' = coll st name'.
Proof. intros Hne. unfold coll, set_coll. simpl. by rewrite lookup_insert_ne. Qed.

Lemma coll_insert_one_eq st name d :
  coll (snd (insert_one st name d)) name
  = coll st name ++ [("_id", VOid (fresh_oid st)) :: d].
Proof. unfold coll, insert_one. simpl. by rewrite lookup_insert_eq. Qed.

Lemma coll_insert_one_ne st name name' d :
  name <> name' -> coll (snd (insert_one st name d)) name' = coll st name'.
Proof. intros Hne. unfold coll, insert_one. simpl. by rewrite lookup_insert_ne. Qed.

Lemma find_all st name : find st name [] = coll st name.
Proof.
  unfold find. induction (coll st name) as [|d r IH]; [done|].
  rewrite filter_cons_True by done. by rewrite IH.
Qed.

Lemma update_first_found (p : dict -> bool) f (l : list dict) :
  existsb p l = true ->
  exists before d after,
    l = before ++ d :: after /\ p d = true /\ existsb p before = false /\
    update_first p f l = Some (before ++ f d :: after).
Proof.
  induction l as [|x r IH]; simpl; [done|].
  destruct (p x) eqn:Hx; simpl; intros H.
  - exists [], x, r. by rewrite Hx.
  - destruct (IH H) as (b & d & a & -> & Hd & Hb & Hu).
    exists (x :: b), d, a. simpl. by rewrite Hx, Hu.
Qed.

Lemma update_first_none (p : dict -> bool) f (l : list dict) :
  existsb p l = false -> update_first p f l = None.
Proof.
  induction l as [|x r IH]; simpl; [done|].
  destruct (p x); simpl; [done|]. intros H. by rewrite IH.
Qed.

Lemma delete_first_cases (p : dict -> bool) (l : list dict) :
  (delete_first p l = None /\ existsb p l = false) \/
  (exists before d after,
     l = before ++ d :: after /\ p d = true /\ existsb p before = false /\
     delete_first p l = Some (before ++ after)).
Proof.
  induction l as [|x r IH]; simpl; [by left|].
  destruct (p x) eqn:Hx; simpl.
  - right. exists [], x, r. done.
  - destruct IH as [[-> Hn]|(b & d & a & -> & Hd & Hb & ->)]; [by left|].
    right. exists (x :: b), d, a. simpl. by rewrite Hx.
Qed.

(** ** Dictionaries written field by field *)

Lemma dict_get_set_eq k v (d : dict) : dict_get k (dict_set k v d) = Some v.
Proof.
  induction d as [|[k' v'] r IH]; simpl.
  - by rewrite String.eqb_refl.
  - destruct (String.eqb_spec k k') as [->|Hne]; simpl.
    + by rewrite String.eqb_refl.
    + by destruct (String.eqb_spec k k').
Qed.

Lemma dict_get_set_ne k k0 v (d : dict) :
  k <> k0 -> dict_get k (dict_set k0 v d) = dict_get k d.
Proof.
  intros Hne. induction d as [|[k' v'] r IH]; simpl.
  - by destruct (String.eqb_spec k k0).
  - destruct (String.eqb_spec k0 k') as [->|Hne']; simpl.
    + by destruct (String.eqb_spec k k').
    + destruct (String.eqb_spec k k'); [done|]. apply IH.
Qed.

Lemma dict_get_absent k (d : dict) : k ∉ keys d -> dict_get k d = None.
Proof.
  induction d as [|[k' v'] r IH]; simpl; [done|]. intros Hk.
  apply not_elem_of_cons in Hk as [Hne Hr].
  destruct (String.eqb_spec k k'); [done|]. by apply IH.
Qed.

(** After [d.update(items)] a key reads as in [items] when [items] has it,
    and as in [d] otherwise. *)
Lemma dict_get_update k (items d : dict) :
  NoDup (keys items) ->
  dict_get k (dict_update d items)
  = match dict_get k items with Some v => Some v | None => dict_get k d end.
Proof.
  unfold dict_update. revert d.
  induction items as [|[k0 v0] r IH]; simpl; intros d Hnd; [done|].
  apply NoDup_cons in Hnd as [Hk0 Hr].
  rewrite IH by done.
  destruct (String.eqb_spec k k0) as [->|Hne].
  - rewrite dict_get_absent by done. apply dict_get_set_eq.
  - by rewrite dict_get_set_ne.
Qed.

(** ** The handlers, case by case *)

Lemma new_keeps_db m kwargs db : snd (new m kwargs db) = db.
Proof. unfold new. by destruct (construct m kwargs). Qed.

Lemma update_item_connected resource model item_id payload st :
  ModelMap_get resource ModelMap = Some model ->
  update_item resource item_id payload (Some st)
  = match ObjectId_of_str item_id with
    | None => (inl (ValueError "Invalid ObjectId"), Some st)
    | Some oid =>
        match update_first (has_id oid) (fun d => dict_update d payload)
                (coll st (collection_name model)) with
        | Some docs =>
            (inr status_ok, Some (set_coll st (collection_name model) docs))
        | None => (inl (HTTPException 404 "Item not found"), Some st)
        end
    end.
Proof.
  intros Hm. unfold update_item. rewrite Hm.
  unfold bind, db_is_None, try_pass. simpl. rewrite new_keeps_db.
  unfold StrObjectId_validate. destruct (ObjectId_of_str item_id) as [oid|]; [|done].
  unfold ret, db_update_one, update_one.
  by destruct (update_first _ _ _).
Qed.

Lemma delete_item_connected resource model item_id st :
  ModelMap_get resource ModelMap = Some model ->
  delete_item resource item_id (Some st)
  = match ObjectId_of_str item_id with
    | None => (inl (ValueError "Invalid ObjectId"), Some st)
    | Some oid =>
        match delete_first (has_id oid) (coll st (collection_name model)) with
        | Some docs =>
            (inr status_ok, Some (set_coll st (collection_name model) docs))
        | None => (inl (HTTPException 404 "Item not found"), Some st)
        end
    end.
Proof.
  intros Hm. unfold delete_item. rewrite Hm.
  unfold bind, db_is_None. simpl.
  unfold StrObjectId_validate. destruct (ObjectId_of_str item_id) as [oid|]; [|done].
  unfold ret, db_delete_one, delete_one.
  by destruct (delete_first _ _).
Qed.

Lemma delete_project_connected project_id st :
  delete_project project_id (Some st)
  = match ObjectId_of_str project_id with
    | None => (inl (ValueError "Invalid ObjectId"), Some st)
    | Some oid =>
        match delete_first (has_id oid) (coll st (collection_name Project)) with
        | Some docs =>
            (inr status_ok, Some (set_coll st (collection_name Project) docs))
        | None => (inl (HTTPException 404 "Project not found"), Some st)
        end
    end.
Proof.
  unfold delete_project, bind, db_is_None. simpl.
  unfold StrObjectId_validate. destruct (ObjectId_of_str project_id) as [oid|]; [|done].
  unfold ret, db_delete_one, delete_one.
  by destruct (delete_first _ _).
Qed.

Lemma ModelMap_twelve : length ModelMap = 12%nat.
Proof. reflexivity. Qed.

(** ** Unknown resource names *)

(** C4. For every resource name that is not in the registry, each of the
    four generic operations raises 404 "Unknown resource", whatever the
    state of the store, and hands the store back as it was. *)
Theorem unknown_resource_not_found
    (resource : string) (Hunknown : ModelMap_get resource ModelMap = None)
    (db : handle) (project_id : option string) (item_id : string) (payload : dict) :
  list_by_project resource project_id db
    = (inl (HTTPException 404 "Unknown resource"), db) /\
  create_item resource payload db
    = (inl (HTTPException 404 "Unknown resource"), db) /\
  update_item resource item_id payload db
    = (inl (HTTPException 404 "Unknown resource"), db) /\
  delete_item resource item_id db
    = (inl (HTTPException 404 "Unknown resource"), db).
Proof.
  unfold list_by_project, create_item, update_item, delete_item.
  rewrite Hunknown. done.
Qed.

Lemma unknown_resource_not_found_witness :
  list_by_project "unknown-kind" (Some "p") (Some sample_store)
    = (inl (HTTPException 404 "Unknown resource"), Some sample_store) /\
  create_item "unknown-kind" sample_payload (Some sample_store)
    = (inl (HTTPException 404 "Unknown resource"), Some sample_store) /\
  update_item "unknown-kind" "000000000000000000000002" sample_payload (Some sample_store)
    = (inl (HTTPException 404 "Unknown resource"), Some sample_store) /\
  delete_item "unknown-kind" "000000000000000000000002" (Some sample_store)
    = (inl (HTTPException 404 "Unknown resource"), Some sample_store).
Proof.
  apply (unknown_resource_not_found "unknown-kind"). reflexivity.
Defined.

(** ** Listing *)

(** C10. For every resource kind, List with the empty string as
    [project_id] does what List without a [project_id] does, and on a
    connected store that is every document of the kind's collection,
    serialized. *)
Theorem list_by_project_empty_project_id
    (resource : string) (model : Model)
    (Hkind : ModelMap_get resource ModelMap = Some model) (db : handle) :
  list_by_project resource (Some "") db = list_by_project resource None db /\
  list_by_project resource (Some "") db
    = match db with
      | Some st => (inr (map serialize_doc (coll st (collection_name model))), db)
      | None => (inr [], db)
      end.
Proof.
  split; [reflexivity|].
  unfold list_by_project. rewrite Hkind.
  destruct db as [st|]; [|reflexivity].
  unfold bind, db_is_None, get_documents, ret. simpl.
  by rewrite find_all.
Qed.

Lemma list_by_project_empty_project_id_witness :
  list_by_project "deployments" (Some "") (Some sample_store)
    = list_by_project "deployments" None (Some sample_store) /\
  list_by_project "deployments" (Some "") (Some sample_store)
    = (inr (map serialize_doc (coll sample_store (collection_name Deployment))),
       Some sample_store).
Proof.
  apply (list_by_project_empty_project_id "deployments" Deployment); reflexivity.
Defined.

(** On the sample store the filter [{"project_id": ""}] would select one
    deployment; List with the empty [project_id] returns all three. *)
Example list_empty_project_id_sample :
  length (find sample_store "deployment" [("project_id", VStr "")]) = 1%nat /\
  fst (list_by_project "deployments" (Some "") (Some sample_store))
    = inr (map serialize_doc
             [sample_deployment 3 "000000000000000000000001" "Dev";
              sample_deployment 4 "000000000000000000000001" "QA";
              sample_deployment 5 "" "Production"]) /\
  fst (list_by_project "deployments" (Some "000000000000000000000001")
         (Some sample_store))
    = inr (map serialize_doc
             [sample_deployment 3 "000000000000000000000001" "Dev";
              sample_deployment 4 "000000000000000000000001" "QA"]).
Proof. repeat split; vm_compute; reflexivity. Qed.

(** ** A store that was never connected *)




(** The two project handlers on a store that was never connected. *)
Lemma project_handlers_never_connected payload project_id :
  create_project payload None = (inl StoreUnavailable, None) /\
  delete_project project_id None
    = (inl (HTTPException 500 "Database not available"), None).
Proof. split; reflexivity. Qed.

(** ** Update and Delete on a connected store *)

(** C5, as the code has it.  On a connected store, for every resource kind,
    Update with an id that parses as an [ObjectId] and is the [_id] of no
    document of the kind's collection raises 404 "Item not found" and
    leaves the whole store as it was. *)
Theorem update_item_missing_id
    (resource : string) (model : Model) (item_id : string) (oid : ObjectId)
    (payload : dict) (st : Store)
    (Hkind : ModelMap_get resource ModelMap = Some model)
    (Hparse : ObjectId_of_str item_id = Some oid)
    (Hmissing : existsb (has_id oid) (coll st (collection_name model)) = false) :
  update_item resource item_id payload (Some st)
    = (inl (HTTPException 404 "Item not found"), Some st).
Proof.
  rewrite (update_item_connected _ model) by done.
  rewrite Hparse. by rewrite update_first_none.
Qed.

Lemma update_item_missing_id_witness :
  update_item "tables" "0000000000000000000000ff" sample_payload (Some sample_store)
    = (inl (HTTPException 404 "Item not found"), Some sample_store).
Proof.
  apply (update_item_missing_id "tables" TableDef "0000000000000000000000ff"
           (sample_oid 255)); reflexivity.
Defined.

(** C5, as stated, fails: ["bad-id"] is the id of no stored record, and
    Update with it raises [ValueError("Invalid ObjectId")], not 404; and
    when the store was never connected, Update with a well-formed id that
    no record has raises 500, not 404. *)
Lemma update_item_unparsable_id_not_404 :
  ObjectId_of_str "bad-id" = None /\
  update_item "tables" "bad-id" sample_payload (Some sample_store)
    = (inl (ValueError "Invalid ObjectId"), Some sample_store) /\
  not_found (fst (update_item "tables" "bad-id" sample_payload (Some sample_store)))
    = false /\
  update_item "tables" "0000000000000000000000ff" sample_payload None
    = (inl (HTTPException 500 "Database not available"), None).
Proof. repeat split; reflexivity. Qed.

(** C9, as the code has it.  On a connected store, for every resource kind,
    Update and Delete with an id that does not parse as an [ObjectId] raise
    [ValueError("Invalid ObjectId")] and leave the store as it was; and
    whatever the state of the store, they do not answer 404. *)
Theorem unparsable_id_rejected
    (resource : string) (model : Model) (item_id : string) (payload : dict)
    (Hkind : ModelMap_get resource ModelMap = Some model)
    (Hparse : ObjectId_of_str item_id = None)
    (st : Store) (db : handle) :
  update_item resource item_id payload (Some st)
    = (inl (ValueError "Invalid ObjectId"), Some st) /\
  delete_item resource item_id (Some st)
    = (inl (ValueError "Invalid ObjectId"), Some st) /\
  not_found (fst (update_item resource item_id payload db)) = false /\
  not_found (fst (delete_item resource item_id db)) = false.
Proof.
  assert (Hu : update_item resource item_id payload (Some st)
               = (inl (ValueError "Invalid ObjectId"), Some st)).
  { rewrite (update_item_connected _ model) by done. by rewrite Hparse. }
  assert (Hd : delete_item resource item_id (Some st)
               = (inl (ValueError "Invalid ObjectId"), Some st)).
  { rewrite (delete_item_connected _ model) by done. by rewrite Hparse. }
  repeat split; try done.
  - destruct db as [st'|].
    + rewrite (update_item_connected _ model) by done. by rewrite Hparse.
    + unfold update_item. by rewrite Hkind.
  - destruct db as [st'|].
    + rewrite (delete_item_connected _ model) by done. by rewrite Hparse.
    + unfold delete_item. by rewrite Hkind.
Qed.

Lemma unparsable_id_rejected_witness :
  update_item "tables" "bad-id" sample_payload (Some sample_store)
    = (inl (ValueError "Invalid ObjectId"), Some sample_store) /\
  delete_item "tables" "bad-id" (Some sample_store)
    = (inl (ValueError "Invalid ObjectId"), Some sample_store) /\
  not_found (fst (update_item "tables" "bad-id" sample_payload None)) = false /\
  not_found (fst (delete_item "tables" "bad-id" None)) = false.
Proof.
  apply (unparsable_id_rejected "tables" TableDef "bad-id"); reflexivity.
Defined.

(** C9, as stated, fails: when the store was never connected, Update and
    Delete with an unparsable id raise 500 "Database not available"; the id
    is not looked at. *)
Lemma unparsable_id_never_connected :
  ObjectId_of_str "bad-id" = None /\
  update_item "tables" "bad-id" sample_payload None
    = (inl (HTTPException 500 "Database not available"), None) /\
  delete_item "tables" "bad-id" None
    = (inl (HTTPException 500 "Database not available"), None).
Proof. repeat split; reflexivity. Qed.



(** ** Projects *)

(** C8. Deleting a project touches the project collection only: every
    other collection, those of the auth settings and of the deployments
    among them, holds after the call exactly the documents it held before.
    In the project collection either nothing changes, or the call answers ok
    and the first document with the given [_id] is gone, and no other. *)
Theorem delete_project_removes_only_project
    (project_id : string) (st : Store) (name : string)
    (Hother : name <> collection_name Project) :
  (fun st' => coll st' name) <$> snd (delete_project project_id (Some st))
    = Some (coll st name) /\
  (snd (delete_project project_id (Some st)) = Some st \/
   exists oid before d after,
     ObjectId_of_str project_id = Some oid /\
     has_id oid d = true /\
     existsb (has_id oid) before = false /\
     coll st (collection_name Project) = before ++ d :: after /\
     delete_project project_id (Some st)
       = (inr status_ok,
          Some (set_coll st (collection_name Project) (before ++ after)))).
Proof.
  rewrite delete_project_connected.
  destruct (ObjectId_of_str project_id) as [oid|]; [|by split; [|left]].
  destruct (delete_first_cases (has_id oid) (coll st (collection_name Project)))
    as [[-> _]|(before & d & after & Hsplit & Hd & Hbefore & ->)].
  - by split; [|left].
  - split.
    + simpl. by rewrite coll_set_coll_ne.
    + right. exists oid, before, d, after. done.
Qed.

Lemma delete_project_removes_only_project_witness :
  (fun st' => coll st' "deployment")
    <$> snd (delete_project "000000000000000000000001" (Some sample_store))
    = Some (coll sample_store "deployment") /\
  (snd (delete_project "000000000000000000000001" (Some sample_store))
     = Some sample_store \/
   exists oid before d after,
     ObjectId_of_str "000000000000000000000001" = Some oid /\
     has_id oid d = true /\
     existsb (has_id oid) before = false /\
     coll sample_store (collection_name Project) = before ++ d :: after /\
     delete_project "000000000000000000000001" (Some sample_store)
       = (inr status_ok,
          Some (set_coll sample_store (collection_name Project) (before ++ after)))).
Proof.
  apply (delete_project_removes_only_project
           "000000000000000000000001" sample_store "deployment").
  discriminate.
Defined.

(** On the sample store the project is deleted and its table and
    deployments stay. *)
Example delete_sample_project :
  exists st',
    delete_project "000000000000000000000001" (Some sample_store)
      = (inr status_ok, Some st') /\
    coll st' "project" = [] /\
    coll st' "tabledef" = coll sample_store "tabledef" /\
    coll st' "deployment" = coll sample_store "deployment" /\
    length (coll st' "deployment") = 3%nat.
Proof.
  eexists. split; [reflexivity|].
  change (collection_name Project) with "project".
  rewrite coll_set_coll_eq.
  rewrite !coll_set_coll_ne by discriminate.
  repeat split; reflexivity.
Qed.

Lemma create_document_connected collection data st :
  create_document collection data (Some st)
  = (inr (ObjectId_str (fresh_oid st)), Some (snd (insert_one st collection data))).
Proof. reflexivity. Qed.

Lemma create_project_connected payload st :
  create_project payload (Some st)
  = (inr [("id", VStr (ObjectId_str (fresh_oid st)))], Some (seeded st payload)).
Proof. reflexivity. Qed.

(** C1. Creating a project on a connected store appends the project to its
    collection, exactly one document to the auth-settings collection and
    exactly three to the deployment collection, with environments Dev, QA
    and Production in this order and status Pending; the [project_id] of
    each of the four is the id the call returns, which is the string of the
    new project's [_id]. *)
Theorem create_project_seeds (payload : dict) (st : Store) :
  let pid := ObjectId_str (fresh_oid st) in
  exists st' a d1 d2 d3,
    create_project payload (Some st) = (inr [("id", VStr pid)], Some st') /\
    coll st' (collection_name Project)
      = coll st (collection_name Project) ++ [("_id", VOid (fresh_oid st)) :: payload] /\
    coll st' (collection_name AuthSettings)
      = coll st (collection_name AuthSettings) ++ [a] /\
    coll st' (collection_name Deployment)
      = coll st (collection_name Deployment) ++ [d1; d2; d3] /\
    dict_get "project_id" a = Some (VStr pid) /\
    map (fun d => (dict_get "project_id" d, dict_get "environment" d, dict_get "status" d))
        [d1; d2; d3]
      = [ (Some (VStr pid), Some (VStr "Dev"), Some (VStr "Pending"));
          (Some (VStr pid), Some (VStr "QA"), Some (VStr "Pending"));
          (Some (VStr pid), Some (VStr "Production"), Some (VStr "Pending")) ].
Proof.
  intros pid. eexists (seeded st payload), _, _, _, _.
  split; [apply create_project_connected|].
  change (collection_name Project) with "project".
  change (collection_name AuthSettings) with "authsettings".
  change (collection_name Deployment) with "deployment".
  unfold seeded.
  split; [|split; [|split]].
  - rewrite !coll_insert_one_ne by discriminate. apply coll_insert_one_eq.
  - rewrite !coll_insert_one_ne by discriminate.
    rewrite coll_insert_one_eq.
    rewrite coll_insert_one_ne by discriminate. reflexivity.
  - rewrite !coll_insert_one_eq.
    rewrite !coll_insert_one_ne by discriminate.
    rewrite <- !app_assoc. simpl. reflexivity.
  - split; reflexivity.
Qed.

(** [POST /projects] with a body that validates runs [create_project] on
    the validated project, defaults filled in. *)
Lemma post_projects body payload st :
  construct Project body = inr payload ->
  post "projects" body (Some st)
  = (inr [("id", VStr (ObjectId_str (fresh_oid st)))], Some (seeded st payload)).
Proof. intros H. unfold post. simpl. rewrite H. apply create_project_connected. Qed.

(** The generic handler, called with the name ["projects"], writes the
    project and nothing else; no request reaches it under that name. *)
Lemma create_item_projects body payload st :
  construct Project body = inr payload ->
  create_item "projects" body (Some st)
  = (inr (ObjectId_str (fresh_oid st)), Some (snd (insert_one st "project" payload))).
Proof. intros H. unfold create_item. simpl. by rewrite H. Qed.

(** A project created on an empty store, then its deployments listed by the
    returned id: three documents, one per environment, with the [_id] of
    each as a string. *)
Example create_then_list_deployments :
  let empty := mkStore ∅ 0 in
  exists db',
    create_project [("name", VStr "Shop"); ("db_type", VStr "PostgreSQL");
                    ("region", VStr "us-east-1"); ("status", VStr "active")]
      (Some empty)
      = (inr [("id", VStr "000000000000000000000000")], db') /\
    fst (list_by_project "deployments" (Some "000000000000000000000000") db')
      = inr [ ("_id", VStr "000000000000000000000002")
                :: pending_deployment "000000000000000000000000" "Dev";
              ("_id", VStr "000000000000000000000003")
                :: pending_deployment "000000000000000000000000" "QA";
              ("_id", VStr "000000000000000000000004")
                :: pending_deployment "000000000000000000000000" "Production" ].
Proof. eexists. split; [reflexivity|]. vm_compute. reflexivity. Qed.

(* ===================================================================== *)
(** * Further properties                                                  *)
(* ===================================================================== *)

(** ** Identifiers and their strings *)

Lemma hex_pair_roundtrip (b : ascii) :
  let hi := hex_digit (N_of_ascii b / 16) in
  let lo := hex_digit (N_of_ascii b mod 16) in
  is_space hi = false /\
  hex_value hi = Some (N_of_ascii b / 16)%N /\
  hex_value lo = Some (N_of_ascii b mod 16)%N /\
  ascii_of_N (16 * (N_of_ascii b / 16) + N_of_ascii b mod 16) = b.
Proof. destruct b as [[] [] [] [] [] [] [] []]; vm_compute; done. Qed.

Lemma fromhex_hexlify (bs : list ascii) :
  fromhex (string_of_list_ascii
             (flat_map (fun b => [hex_digit (N_of_ascii b / 16);
                                  hex_digit (N_of_ascii b mod 16)]) bs))
  = Some bs.
Proof.
  induction bs as [|b r IH]; [done|].
  destruct (hex_pair_roundtrip b) as (Hs & Hh & Hl & Hb).
  cbn [flat_map app string_of_list_ascii fromhex].
  rewrite Hs, Hh, Hl, IH. by rewrite Hb.
Qed.

Lemma length_ObjectId_str (o : ObjectId) :
  String.length (ObjectId_str o) = (2 * length (binary o))%nat.
Proof.
  unfold ObjectId_str. induction (binary o) as [|b r IH]; [done|].
  cbn [flat_map app string_of_list_ascii String.length length]. rewrite IH. lia.
Qed.

Lemma ObjectId_of_str_roundtrip (o : ObjectId) :
  length (binary o) = 12%nat -> ObjectId_of_str (ObjectId_str o) = Some o.
Proof.
  intros Hlen. unfold ObjectId_of_str.
  rewrite length_ObjectId_str, Hlen. simpl.
  unfold ObjectId_str. rewrite fromhex_hexlify. by destruct o.
Qed.

Lemma length_bytes_be (n : nat) (x : N) : length (bytes_be n x) = n.
Proof.
  revert x. induction n as [|n IH]; intros x; simpl; [done|].
  rewrite length_app, IH. simpl. lia.
Qed.

Lemma fresh_oid_roundtrip (st : Store) :
  ObjectId_of_str (ObjectId_str (fresh_oid st)) = Some (fresh_oid st).
Proof. apply ObjectId_of_str_roundtrip. apply length_bytes_be. Qed.

Lemma ObjectId_eqb_refl (o : ObjectId) : ObjectId_eqb o o = true.
Proof. unfold ObjectId_eqb. by destruct (decide _). Qed.

(** X1. [StrObjectId.validate] undoes [str]: for every 12-byte identifier,
    validating its string gives the identifier back and leaves [db] alone. *)
Theorem StrObjectId_validate_str (o : ObjectId) (db : handle)
    (Hlen : length (binary o) = 12%nat) :
  StrObjectId_validate (ObjectId_str o) db = (inr o, db).
Proof.
  unfold StrObjectId_validate. by rewrite ObjectId_of_str_roundtrip.
Qed.

Lemma StrObjectId_validate_str_witness :
  StrObjectId_validate (ObjectId_str (sample_oid 2)) (Some sample_store)
  = (inr (sample_oid 2), Some sample_store).
Proof. apply (StrObjectId_validate_str (sample_oid 2)). reflexivity. Defined.

(** ** More on the serializer *)

Lemma dict_get_serialized k (d : dict) :
  dict_get k (map serialized_entry d)
  = serialize_field serialize_dict_value <$> dict_get k d.
Proof.
  induction d as [|[k' v] r IH]; simpl; [done|].
  by destruct (String.eqb k k').
Qed.

(** X2. On a dictionary, [serialize_doc] keeps the keys and their order:
    no field is dropped, added or renamed. *)
Theorem serialize_doc_keys (doc : dict) (Hkeys : NoDup (keys doc)) :
  keys (serialize_doc doc) = keys doc.
Proof. rewrite serialize_doc_map by done. apply keys_serialized. Qed.

Lemma serialize_doc_keys_witness :
  keys (serialize_doc sample_project) = keys sample_project.
Proof.
  apply (serialize_doc_keys sample_project).
  apply (bool_decide_unpack _). vm_compute. exact I.
Defined.

(** X3. On a dictionary, each field of the output is the rewriting of the
    same field of the input: a field that holds an identifier, as [_id]
    does, comes out as the identifier's string; a list comes out with its
    elements rewritten, a dictionary serialized; a field that holds [None],
    a boolean, a number or a string comes out as it is; and a key the
    input lacks is lacking in the output. *)
Theorem serialize_doc_field (doc : dict) (k : string) (Hkeys : NoDup (keys doc)) :
  dict_get k (serialize_doc doc)
  = match dict_get k doc with
    | Some (VOid o) => Some (VStr (ObjectId_str o))
    | Some (VList l) => Some (VList (map (serialize_item serialize_dict_value) l))
    | Some (VDict d) => Some (VDict (serialize_doc d))
    | Some v => Some v
    | None => None
    end.
Proof.
  rewrite serialize_doc_map by done. rewrite dict_get_serialized.
  destruct (dict_get k doc) as [v|]; [|done]. by destruct v.
Qed.

Lemma serialize_doc_field_witness :
  dict_get "_id" (serialize_doc sample_project)
  = Some (VStr (ObjectId_str (sample_oid 1))).
Proof.
  apply (serialize_doc_field sample_project "_id").
  apply (bool_decide_unpack _). vm_compute. exact I.
Defined.

Lemma serialize_field_fixed (v : value) :
  well_formed v = true -> contains_oid v = false ->
  serialize_field serialize_dict_value v = v.
Proof.
  induction v as [| | | | | |l IH|d IH] using value_nested_ind;
    intros Hwf Hoid; try done.
  - simpl in *. f_equal. rewrite <- (map_id l) at 2. apply map_ext_in.
    intros i Hi. rewrite forallb_forall in Hwf.
    pose proof (Hwf i Hi) as Hwfi.
    assert (Hoidi : contains_oid i = false).
    { apply not_true_is_false. intros Hc.
      assert (existsb contains_oid l = true) by (apply existsb_exists; by exists i).
      congruence. }
    rewrite Forall_forall in IH. apply list_elem_of_In in Hi.
    specialize (IH i Hi Hwfi Hoidi).
    destruct i; simpl in *; try done.
  - rewrite serialize_field_dict. f_equal. simpl in Hwf, Hoid.
    apply andb_true_iff in Hwf as [Hnd Hwf].
    apply bool_decide_eq_true in Hnd.
    rewrite serialize_doc_map by done.
    rewrite <- (map_id d) at 2. apply map_ext_in.
    intros [k v] Hkv. rewrite forallb_forall in Hwf.
    pose proof (Hwf _ Hkv) as Hwfv. simpl in Hwfv.
    assert (Hoidv : contains_oid v = false).
    { apply not_true_is_false. intros Hc.
      assert (existsb (fun kv => contains_oid (snd kv)) d = true)
        by (apply existsb_exists; by exists (k, v)).
      congruence. }
    rewrite Forall_forall in IH. apply list_elem_of_In in Hkv.
    specialize (IH _ Hkv Hwfv Hoidv). unfold serialized_entry. simpl in *.
    by rewrite IH.
Qed.

(** X4. A document that holds no identifier, at any depth, is returned by
    [serialize_doc] exactly as it is. *)
Theorem serialize_doc_without_oid (doc : dict)
    (Hwf : well_formed (VDict doc) = true)
    (Hoid : contains_oid (VDict doc) = false) :
  serialize_doc doc = doc.
Proof.
  pose proof (serialize_field_fixed (VDict doc) Hwf Hoid) as H.
  rewrite serialize_field_dict in H. by injection H.
Qed.

Lemma serialize_doc_without_oid_witness :
  serialize_doc sample_payload = sample_payload.
Proof. apply (serialize_doc_without_oid sample_payload); reflexivity. Defined.

(** X5. When no list is an element of a list in the document, the output
    of [serialize_doc] holds no identifier, at any depth. *)
Theorem serialize_doc_no_oid (doc : dict)
    (Hflat : lists_are_flat (VDict doc) = true) :
  contains_oid (VDict (serialize_doc doc)) = false.
Proof.
  pose proof (serialize_field_no_oid (VDict doc) Hflat) as H.
  by rewrite serialize_field_dict in H.
Qed.

Lemma serialize_doc_no_oid_witness :
  contains_oid
    (VDict (serialize_doc
              [("_id", VOid (sample_oid 1));
               ("refs", VList [VOid (sample_oid 2); VDict [("t", VOid (sample_oid 3))]]);
               ("owner", VDict [("id", VOid (sample_oid 4))])]))
  = false.
Proof. apply serialize_doc_no_oid. reflexivity. Defined.

(** ** Model instances *)

Lemma construct_fields_keys nested (fs : list Field) (kwargs d : dict) :
  construct_fields nested fs kwargs = inr d -> keys d = map field_name fs.
Proof.
  revert d. induction fs as [|f r IH]; simpl; intros d H.
  - by injection H as <-.
  - destruct (match dict_get (field_name f) kwargs with
              | Some v => validate nested (annotation f) v
              | None => field_default f
              end) as [v|]; [|done].
    destruct (construct_fields nested r kwargs) as [e|d'] eqn:Hr; [done|].
    injection H as <-. simpl. f_equal. by apply IH.
Qed.

Lemma construct_fields_ext nested (fs : list Field) (kw1 kw2 : dict) :
  (forall f, f ∈ fs -> dict_get (field_name f) kw1 = dict_get (field_name f) kw2) ->
  construct_fields nested fs kw1 = construct_fields nested fs kw2.
Proof.
  induction fs as [|f r IH]; simpl; intros H; [done|].
  rewrite (H f) by (by apply elem_of_cons; left).
  rewrite IH; [done|]. intros g Hg. apply H. by apply elem_of_cons; right.
Qed.


Lemma construct_fields_missing nested (fs : list Field) (kwargs : dict) (f : Field) :
  f ∈ fs -> field_default f = None -> dict_get (field_name f) kwargs = None ->
  exists field, construct_fields nested fs kwargs = inl field.
Proof.
  induction fs as [|g r IH]; simpl; intros Hf Hreq Habs.
  - by apply elem_of_nil in Hf.
  - apply elem_of_cons in Hf as [<-|Hf].
    + rewrite Habs, Hreq. eauto.
    + destruct (match dict_get (field_name g) kwargs with
                | Some v => validate nested (annotation g) v
                | None => field_default g
                end) as [v|]; [|eauto].
      destruct (IH Hf Hreq Habs) as [field ->]. eauto.
Qed.

Lemma model_fields_NoDup (m : Model) : NoDup (map field_name (model_fields m)).
Proof. destruct m; apply (bool_decide_unpack _); vm_compute; exact I. Qed.

Lemma is_model_field_name (m : Model) (f : Field) :
  f ∈ model_fields m -> is_model_field m (field_name f) = true.
Proof.
  intros Hf. unfold is_model_field. apply existsb_exists.
  exists f. split; [by apply list_elem_of_In|apply String.eqb_refl].
Qed.

Lemma dict_get_filter_field (m : Model) (k : string) (payload : dict) :
  is_model_field m k = true ->
  dict_get k (filter (fun kv => is_model_field m (fst kv) = true) payload)
  = dict_get k payload.
Proof.
  intros Hk. induction payload as [|[k' v] r IH]; [done|].
  destruct (decide (is_model_field m k' = true)) as [Hk'|Hk'].
  - rewrite filter_cons_True by done. simpl. by rewrite IH.
  - rewrite filter_cons_False by done. simpl.
    destruct (String.eqb_spec k k') as [->|_]; [done|]. apply IH.
Qed.

(** X6. An instance has exactly the declared fields of its model, in the
    order of declaration, whatever keyword arguments it was built from:
    arguments that are not fields are dropped and fields that were not
    given are there. *)
Theorem construct_keys (m : Model) (kwargs obj : dict)
    (Hobj : construct m kwargs = inr obj) :
  keys obj = map field_name (model_fields m).
Proof. by apply (construct_fields_keys construct_nested _ kwargs). Qed.

Lemma construct_keys_witness :
  keys sample_new_table_instance = map field_name (model_fields TableDef).
Proof.
  apply (construct_keys TableDef
           (("owner", VStr "ops") :: sample_new_table)). reflexivity.
Defined.



(** X8. The intersection that [update_item] builds before it validates
    changes nothing: the model built from the declared keys of the payload
    is the model built from the whole payload. *)
Theorem construct_declared_keys (m : Model) (payload : dict) :
  construct m (filter (fun kv => is_model_field m (fst kv) = true) payload)
  = construct m payload.
Proof.
  apply construct_fields_ext. intros f Hf.
  apply dict_get_filter_field. by apply is_model_field_name.
Qed.

(** X9. For every resource kind, Create with a payload that lacks a required
    field of the kind's model answers 422 and writes nothing, whether or
    not the store is connected. *)
Theorem create_item_missing_required
    (resource : string) (model : Model) (f : Field) (payload : dict) (db : handle)
    (Hkind : ModelMap_get resource ModelMap = Some model)
    (Hf : f ∈ model_fields model)
    (Hreq : field_default f = None)
    (Habs : dict_get (field_name f) payload = None) :
  exists field,
    create_item resource payload db = (inl (HTTPException 422 field), db).
Proof.
  destruct (construct_fields_missing construct_nested _ payload f Hf Hreq Habs)
    as [field Hc].
  exists field. unfold create_item. rewrite Hkind.
  unfold construct. by rewrite Hc.
Qed.

Lemma create_item_missing_required_witness :
  exists field,
    create_item "tables" [("project_id", VStr "000000000000000000000001")]
      (Some sample_store)
    = (inl (HTTPException 422 field), Some sample_store).
Proof.
  apply (create_item_missing_required "tables" TableDef (required "name" TStr)).
  - reflexivity.
  - apply list_elem_of_In. simpl. tauto.
  - reflexivity.
  - reflexivity.
Defined.

(** ** More on Update *)

Lemma update_first_length (p : dict -> bool) f (l l' : list dict) :
  update_first p f l = Some l' -> length l' = length l.
Proof.
  revert l'. induction l as [|x r IH]; simpl; intros l' H; [done|].
  destruct (p x).
  - by injection H as <-.
  - destruct (update_first p f r) as [r'|]; [|done].
    injection H as <-. simpl. by rewrite (IH r').
Qed.

Lemma update_first_app (p : dict -> bool) f (before after : list dict) (d : dict) :
  existsb p before = false -> p d = true ->
  update_first p f (before ++ d :: after) = Some (before ++ f d :: after).
Proof.
  intros Hb Hd. induction before as [|x r IH]; simpl in *.
  - by rewrite Hd.
  - apply orb_false_iff in Hb as [Hx Hr]. rewrite Hx. by rewrite IH.
Qed.

Lemma delete_first_app (p : dict -> bool) (before after : list dict) (d : dict) :
  existsb p before = false -> p d = true ->
  delete_first p (before ++ d :: after) = Some (before ++ after).
Proof.
  intros Hb Hd. induction before as [|x r IH]; simpl in *.
  - by rewrite Hd.
  - apply orb_false_iff in Hb as [Hx Hr]. rewrite Hx. by rewrite IH.
Qed.

Lemma delete_first_none (p : dict -> bool) (l : list dict) :
  existsb p l = false -> delete_first p l = None.
Proof.
  induction l as [|x r IH]; simpl; [done|].
  destruct (p x); simpl; [done|]. intros H. by rewrite IH.
Qed.

Lemma dict_set_same k v (d : dict) : dict_get k d = Some v -> dict_set k v d = d.
Proof.
  induction d as [|[k' v'] r IH]; simpl; [done|].
  destruct (String.eqb_spec k k') as [->|_]; intros H.
  - by injection H as ->.
  - by rewrite IH.
Qed.

Lemma dict_update_same (items d : dict) :
  (forall k v, (k, v) ∈ items -> dict_get k d = Some v) ->
  dict_update d items = d.
Proof.
  unfold dict_update. induction items as [|[k v] r IH]; simpl; intros H; [done|].
  rewrite dict_set_same by (apply H; by apply elem_of_cons; left).
  apply IH. intros k' v' Hkv. apply H. by apply elem_of_cons; right.
Qed.

Lemma dict_get_elem_of k v (d : dict) :
  NoDup (keys d) -> (k, v) ∈ d -> dict_get k d = Some v.
Proof.
  induction d as [|[k' v'] r IH]; simpl; intros Hnd Hin.
  - by apply elem_of_nil in Hin.
  - apply NoDup_cons in Hnd as [Hk' Hnd].
    apply elem_of_cons in Hin as [Heq|Hin].
    + injection Heq as -> ->. by rewrite String.eqb_refl.
    + destruct (String.eqb_spec k k') as [->|_]; [|by apply IH].
      destruct Hk'. by apply (list_elem_of_fmap_2 fst _ (k', v)).
Qed.

(** Writing the same fields a second time changes nothing. *)
Lemma dict_update_twice (items d : dict) :
  NoDup (keys items) ->
  dict_update (dict_update d items) items = dict_update d items.
Proof.
  intros Hnd. apply dict_update_same. intros k v Hkv.
  rewrite dict_get_update by done. by rewrite (dict_get_elem_of k v).
Qed.

Lemma set_coll_twice st name docs docs' :
  set_coll (set_coll st name docs) name docs' = set_coll st name docs'.
Proof. unfold set_coll. simpl. by rewrite insert_insert_eq. Qed.

Lemma coll_set_coll st name name' docs :
  coll (set_coll st name docs) name'
  = if decide (name = name') then docs else coll st name'.
Proof.
  destruct (decide (name = name')) as [->|Hne].
  - apply coll_set_coll_eq.
  - by apply coll_set_coll_ne.
Qed.

(** X10. Update never adds or removes a document: whatever the resource
    name, the id and the payload, on a connected store every collection
    holds as many documents after the call as before, and the store stays
    connected. *)
Theorem update_item_keeps_counts
    (resource item_id : string) (payload : dict) (st : Store) (name : string) :
  exists st',
    snd (update_item resource item_id payload (Some st)) = Some st' /\
    length (coll st' name) = length (coll st name).
Proof.
  destruct (ModelMap_get resource ModelMap) as [model|] eqn:Hkind.
  - rewrite (update_item_connected _ model) by done.
    destruct (ObjectId_of_str item_id) as [oid|]; [|by exists st].
    destruct (update_first _ _ _) as [docs|] eqn:Hu; [|by exists st].
    eexists. split; [reflexivity|].
    rewrite coll_set_coll. destruct (decide _) as [<-|_]; [|done].
    by apply update_first_length in Hu.
  - exists st. unfold update_item. by rewrite Hkind.
Qed.

(** X11. On a connected store Update is idempotent when the payload does
    not name [_id]: sending the same request a second time gives the same
    answer and the same store as sending it once. *)
Theorem update_item_twice
    (resource item_id : string) (payload : dict) (st : Store)
    (Hpayload : NoDup (keys payload))
    (Hid : dict_get "_id" payload = None) :
  update_item resource item_id payload
    (snd (update_item resource item_id payload (Some st)))
  = update_item resource item_id payload (Some st).
Proof.
  destruct (ModelMap_get resource ModelMap) as [model|] eqn:Hkind;
    [|by unfold update_item; rewrite Hkind].
  rewrite (update_item_connected _ model _ _ st) by done.
  destruct (ObjectId_of_str item_id) as [oid|] eqn:Hparse.
  - destruct (existsb (has_id oid) (coll st (collection_name model))) eqn:Hex.
    + destruct (update_first_found (has_id oid) (fun d => dict_update d payload)
                  _ Hex) as (before & d & after & Hsplit & Hd & Hbefore & Hupd).
      rewrite Hupd. simpl.
      rewrite (update_item_connected _ model) by done.
      rewrite Hparse, coll_set_coll_eq.
      rewrite update_first_app; try done.
      * by rewrite dict_update_twice, set_coll_twice.
      * unfold has_id in *. rewrite dict_get_update by done. by rewrite Hid.
    + rewrite update_first_none by done. simpl.
      rewrite (update_item_connected _ model) by done.
      by rewrite Hparse, update_first_none.
  - simpl. rewrite (update_item_connected _ model) by done. by rewrite Hparse.
Qed.

Lemma update_item_twice_witness :
  update_item "tables" "000000000000000000000002" sample_payload
    (snd (update_item "tables" "000000000000000000000002" sample_payload
            (Some sample_store)))
  = update_item "tables" "000000000000000000000002" sample_payload
      (Some sample_store).
Proof.
  apply (update_item_twice "tables" "000000000000000000000002" sample_payload).
  - apply (bool_decide_unpack _). vm_compute. exact I.
  - reflexivity.
Defined.

(** ** Kinds and their collections *)

Lemma ModelMap_get_In (resource : string) (m : Model) (l : list (string * Model)) :
  ModelMap_get resource l = Some m -> In (resource, m) l.
Proof.
  induction l as [|[k v] r IH]; simpl; [done|].
  destruct (String.eqb_spec resource k) as [->|_].
  - intros H. injection H as ->. by left.
  - intros H. right. by apply IH.
Qed.

Lemma collection_name_inj (m m' : Model) :
  collection_name m = collection_name m' -> m = m'.
Proof. destruct m, m'; intros H; try reflexivity; vm_compute in H; discriminate. Qed.

Lemma ModelMap_one_name (r r' : string) (m : Model) :
  ModelMap_get r ModelMap = Some m -> ModelMap_get r' ModelMap = Some m -> r = r'.
Proof.
  intros H H'. apply ModelMap_get_In in H. apply ModelMap_get_In in H'.
  simpl in H, H'.
  repeat (destruct H as [H|H]; [injection H as <- <-|]); try done;
    repeat (destruct H' as [H'|H']; [try discriminate H'; try (by injection H')|]);
    done.
Qed.

Lemma update_item_frame resource model item_id payload st name :
  ModelMap_get resource ModelMap = Some model ->
  name <> collection_name model ->
  (fun st' => coll st' name) <$> snd (update_item resource item_id payload (Some st))
  = Some (coll st name).
Proof.
  intros Hkind Hne. rewrite (update_item_connected _ model) by done.
  destruct (ObjectId_of_str item_id) as [oid|]; [|done].
  destruct (update_first _ _ _); [|done].
  simpl. by rewrite coll_set_coll_ne.
Qed.

Lemma delete_item_frame resource model item_id st name :
  ModelMap_get resource ModelMap = Some model ->
  name <> collection_name model ->
  (fun st' => coll st' name) <$> snd (delete_item resource item_id (Some st))
  = Some (coll st name).
Proof.
  intros Hkind Hne. rewrite (delete_item_connected _ model) by done.
  destruct (ObjectId_of_str item_id) as [oid|]; [|done].
  destruct (delete_first _ _); [|done].
  simpl. by rewrite coll_set_coll_ne.
Qed.

(** X12. Two different resource kinds never share a collection, so Update
    and Delete on one kind leave the documents of every other kind as they
    were, whatever the id and the payload. *)
Theorem other_kind_untouched
    (resource other : string) (model model' : Model)
    (item_id : string) (payload : dict) (st : Store)
    (Hkind : ModelMap_get resource ModelMap = Some model)
    (Hother : ModelMap_get other ModelMap = Some model')
    (Hne : resource <> other) :
  collection_name model <> collection_name model' /\
  (fun st' => coll st' (collection_name model'))
    <$> snd (update_item resource item_id payload (Some st))
    = Some (coll st (collection_name model')) /\
  (fun st' => coll st' (collection_name model'))
    <$> snd (delete_item resource item_id (Some st))
    = Some (coll st (collection_name model')).
Proof.
  assert (Hc : collection_name model <> collection_name model').
  { intros Heq. apply collection_name_inj in Heq as <-.
    apply Hne. by apply (ModelMap_one_name _ _ model). }
  split; [done|]. split.
  - by apply (update_item_frame _ model).
  - by apply (delete_item_frame _ model).
Qed.

Lemma other_kind_untouched_witness :
  collection_name TableDef <> collection_name Deployment /\
  (fun st' => coll st' (collection_name Deployment))
    <$> snd (update_item "tables" "000000000000000000000002" sample_payload
               (Some sample_store))
    = Some (coll sample_store (collection_name Deployment)) /\
  (fun st' => coll st' (collection_name Deployment))
    <$> snd (delete_item "tables" "000000000000000000000002" (Some sample_store))
    = Some (coll sample_store (collection_name Deployment)).
Proof.
  apply (other_kind_untouched "tables" "deployments" TableDef Deployment);
    [reflexivity | reflexivity | discriminate].
Defined.

(** ** Delete *)

(** X13. On a connected store, for every resource kind, Delete with an id
    that parses as an [ObjectId] and is the [_id] of no document of the
    kind's collection raises 404 "Item not found" and leaves the whole
    store as it was. *)
Theorem delete_item_missing_id
    (resource : string) (model : Model) (item_id : string) (oid : ObjectId)
    (st : Store)
    (Hkind : ModelMap_get resource ModelMap = Some model)
    (Hparse : ObjectId_of_str item_id = Some oid)
    (Hmissing : existsb (has_id oid) (coll st (collection_name model)) = false) :
  delete_item resource item_id (Some st)
  = (inl (HTTPException 404 "Item not found"), Some st).
Proof.
  rewrite (delete_item_connected _ model) by done.
  rewrite Hparse. by rewrite delete_first_none.
Qed.

Lemma delete_item_missing_id_witness :
  delete_item "tables" "0000000000000000000000ff" (Some sample_store)
  = (inl (HTTPException 404 "Item not found"), Some sample_store).
Proof.
  apply (delete_item_missing_id "tables" TableDef "0000000000000000000000ff"
           (sample_oid 255)); reflexivity.
Defined.

(** X14. On a connected store, for every resource kind, Delete with the id
    of a stored document of the kind answers ok and removes the first
    document with that [_id] and no other: the documents before it and
    after it stay, in their order. *)
Theorem delete_item_removes_one
    (resource : string) (model : Model) (item_id : string) (oid : ObjectId)
    (st : Store)
    (Hkind : ModelMap_get resource ModelMap = Some model)
    (Hparse : ObjectId_of_str item_id = Some oid)
    (Hstored : existsb (has_id oid) (coll st (collection_name model)) = true) :
  exists before d after,
    coll st (collection_name model) = before ++ d :: after /\
    has_id oid d = true /\
    existsb (has_id oid) before = false /\
    delete_item resource item_id (Some st)
      = (inr status_ok,
         Some (set_coll st (collection_name model) (before ++ after))).
Proof.
  rewrite (delete_item_connected _ model) by done. rewrite Hparse.
  destruct (delete_first_cases (has_id oid) (coll st (collection_name model)))
    as [[_ Hn]|(before & d & after & Hsplit & Hd & Hb & ->)]; [congruence|].
  exists before, d, after. done.
Qed.

Lemma delete_item_removes_one_witness :
  exists before d after,
    coll sample_store (collection_name Deployment) = before ++ d :: after /\
    has_id (sample_oid 4) d = true /\
    existsb (has_id (sample_oid 4)) before = false /\
    delete_item "deployments" "000000000000000000000004" (Some sample_store)
      = (inr status_ok,
         Some (set_coll sample_store (collection_name Deployment) (before ++ after))).
Proof.
  apply (delete_item_removes_one "deployments" Deployment
           "000000000000000000000004" (sample_oid 4)); reflexivity.
Defined.

(** X15. Delete is not repeatable: once a document whose [_id] no other
    document of the collection has is deleted, a second Delete with the
    same id raises 404 "Item not found" and changes nothing. *)
Theorem delete_item_twice
    (resource : string) (model : Model) (item_id : string) (oid : ObjectId)
    (st : Store) (before after : list dict) (d : dict)
    (Hkind : ModelMap_get resource ModelMap = Some model)
    (Hparse : ObjectId_of_str item_id = Some oid)
    (Hsplit : coll st (collection_name model) = before ++ d :: after)
    (Hd : has_id oid d = true)
    (Hbefore : existsb (has_id oid) before = false)
    (Hafter : existsb (has_id oid) after = false) :
  let st' := set_coll st (collection_name model) (before ++ after) in
  delete_item resource item_id (Some st) = (inr status_ok, Some st') /\
  delete_item resource item_id (Some st')
    = (inl (HTTPException 404 "Item not found"), Some st').
Proof.
  intros st'. split.
  - rewrite (delete_item_connected _ model) by done.
    by rewrite Hparse, Hsplit, delete_first_app.
  - rewrite (delete_item_connected _ model) by done. rewrite Hparse.
    unfold st'. rewrite coll_set_coll_eq.
    rewrite delete_first_none; [done|].
    rewrite existsb_app. by rewrite Hbefore, Hafter.
Qed.

Lemma delete_item_twice_witness :
  let st' :=
    set_coll sample_store (collection_name Deployment)
      ([sample_deployment 3 "000000000000000000000001" "Dev"]
         ++ [sample_deployment 5 "" "Production"]) in
  delete_item "deployments" "000000000000000000000004" (Some sample_store)
    = (inr status_ok, Some st') /\
  delete_item "deployments" "000000000000000000000004" (Some st')
    = (inl (HTTPException 404 "Item not found"), Some st').
Proof.
  apply (delete_item_twice "deployments" Deployment "000000000000000000000004"
           (sample_oid 4) sample_store
           [sample_deployment 3 "000000000000000000000001" "Dev"]
           [sample_deployment 5 "" "Production"]
           (sample_deployment 4 "000000000000000000000001" "QA"));
    reflexivity.
Defined.

(** X16. On a connected store, deleting a project with an id that parses
    as an [ObjectId] and is the [_id] of no stored project raises 404
    "Project not found" and leaves the whole store as it was. *)
Theorem delete_project_missing_id
    (project_id : string) (oid : ObjectId) (st : Store)
    (Hparse : ObjectId_of_str project_id = Some oid)
    (Hmissing : existsb (has_id oid) (coll st (collection_name Project)) = false) :
  delete_project project_id (Some st)
  = (inl (HTTPException 404 "Project not found"), Some st).
Proof.
  rewrite delete_project_connected, Hparse. by rewrite delete_first_none.
Qed.

Lemma delete_project_missing_id_witness :
  delete_project "000000000000000000000002" (Some sample_store)
  = (inl (HTTPException 404 "Project not found"), Some sample_store).
Proof.
  apply (delete_project_missing_id "000000000000000000000002" (sample_oid 2));
    reflexivity.
Defined.

(** X17. A write that fails writes nothing: whenever Create, Update, Delete
    or the deletion of a project raises, for whatever reason and whatever
    the state of [db], [db] is handed back exactly as it was. *)
Theorem failed_write_untouched
    (resource item_id : string) (payload : dict) (db : handle) :
  untouched_on_error (create_item resource payload) db /\
  untouched_on_error (update_item resource item_id payload) db /\
  untouched_on_error (delete_item resource item_id) db /\
  untouched_on_error (delete_project item_id) db.
Proof.
  unfold untouched_on_error. repeat split.
  - unfold create_item. destruct (ModelMap_get resource ModelMap) as [model|]; [|done].
    destruct (construct model payload); [done|].
    by destruct db.
  - destruct (ModelMap_get resource ModelMap) as [model|] eqn:Hkind;
      [|by unfold update_item; rewrite Hkind].
    destruct db as [st|]; [|by unfold update_item; rewrite Hkind].
    rewrite (update_item_connected _ model) by done.
    destruct (ObjectId_of_str item_id); [|done]. by destruct (update_first _ _ _).
  - destruct (ModelMap_get resource ModelMap) as [model|] eqn:Hkind;
      [|by unfold delete_item; rewrite Hkind].
    destruct db as [st|]; [|by unfold delete_item; rewrite Hkind].
    rewrite (delete_item_connected _ model) by done.
    destruct (ObjectId_of_str item_id); [|done]. by destruct (delete_first _ _).
  - destruct db as [st|]; [|done].
    rewrite delete_project_connected.
    destruct (ObjectId_of_str item_id); [|done]. by destruct (delete_first _ _).
Qed.

(** ** Create, and what follows it *)

Lemma has_id_fresh (o : ObjectId) (d : dict) : has_id o (("_id", VOid o) :: d) = true.
Proof. unfold has_id. simpl. apply ObjectId_eqb_refl. Qed.






(** X20. With the adapter's insert as the data-store contract describes it,
    a project created and then deleted by the returned id leaves its seeds
    behind: when the new identifier is not yet in the project collection,
    the deletion answers ok, the project collection is what it was before
    the creation, and the auth-settings and deployment collections still
    hold the one and the three documents the creation added. *)
Theorem create_project_then_delete (payload : dict) (st : Store)
    (Hnew : existsb (has_id (fresh_oid st)) (coll st (collection_name Project)) = false) :
  exists _id st1 st2,
    create_project payload (Some st) = (inr [("id", VStr _id)], Some st1) /\
    delete_project _id (Some st1) = (inr status_ok, Some st2) /\
    coll st2 (collection_name Project) = coll st (collection_name Project) /\
    coll st2 (collection_name AuthSettings) = coll st1 (collection_name AuthSettings) /\
    coll st2 (collection_name Deployment) = coll st1 (collection_name Deployment) /\
    length (coll st2 (collection_name AuthSettings))
      = S (length (coll st (collection_name AuthSettings))) /\
    length (coll st2 (collection_name Deployment))
      = S (S (S (length (coll st (collection_name Deployment))))).
Proof.
  eexists _, _, _. split; [apply create_project_connected|].
  rewrite delete_project_connected, fresh_oid_roundtrip.
  change (collection_name Project) with "project".
  change (collection_name AuthSettings) with "authsettings".
  change (collection_name Deployment) with "deployment".
  assert (Hp : coll (seeded st payload) "project"
               = coll st "project" ++ [("_id", VOid (fresh_oid st)) :: payload]).
  { unfold seeded. rewrite !coll_insert_one_ne by discriminate.
    apply coll_insert_one_eq. }
  rewrite Hp, delete_first_app by (done || apply has_id_fresh).
  split; [reflexivity|].
  rewrite coll_set_coll_eq, !coll_set_coll_ne by discriminate.
  rewrite app_nil_r. repeat split; try done.
  - unfold seeded. rewrite !coll_insert_one_ne by discriminate.
    rewrite coll_insert_one_eq, coll_insert_one_ne by discriminate.
    rewrite length_app. simpl. lia.
  - unfold seeded. rewrite !coll_insert_one_eq.
    rewrite !coll_insert_one_ne by discriminate.
    rewrite !length_app. simpl. lia.
Qed.

Lemma create_project_then_delete_witness :
  exists _id st1 st2,
    create_project sample_new_table (Some sample_store)
      = (inr [("id", VStr _id)], Some st1) /\
    delete_project _id (Some st1) = (inr status_ok, Some st2) /\
    coll st2 (collection_name Project) = coll sample_store (collection_name Project) /\
    coll st2 (collection_name AuthSettings) = coll st1 (collection_name AuthSettings) /\
    coll st2 (collection_name Deployment) = coll st1 (collection_name Deployment) /\
    length (coll st2 (collection_name AuthSettings))
      = S (length (coll sample_store (collection_name AuthSettings))) /\
    length (coll st2 (collection_name Deployment))
      = S (S (S (length (coll sample_store (collection_name Deployment))))).
Proof.
  apply (create_project_then_delete sample_new_table sample_store). reflexivity.
Defined.

(** ** Listing with a project filter *)

Lemma matches_project_id (p : string) (d : dict) :
  matches [("project_id", VStr p)] d = has_project p d.
Proof.
  unfold matches, has_project. simpl.
  destruct (dict_get "project_id" d) as [v|]; [|done].
  rewrite andb_true_r. by destruct v.
Qed.

Lemma find_project_id st name p :
  find st name [("project_id", VStr p)] = List.filter (has_project p) (coll st name).
Proof.
  unfold find. induction (coll st name) as [|d r IH]; [done|].
  cbn [List.filter]. rewrite <- matches_project_id.
  destruct (matches [("project_id", VStr p)] d) eqn:Hm.
  - rewrite filter_cons_True by done. by rewrite IH.
  - rewrite filter_cons_False by (by rewrite Hm). by rewrite IH.
Qed.

(** X21. With the adapter's find as the data-store contract describes it,
    List with a non-empty [project_id] on a connected store returns, in the
    order of the store and serialized, exactly the documents of the kind
    whose [project_id] is that string, and leaves the store alone. *)
Theorem list_by_project_filtered
    (resource : string) (model : Model) (p : string) (st : Store)
    (Hkind : ModelMap_get resource ModelMap = Some model)
    (Hp : p <> "") :
  list_by_project resource (Some p) (Some st)
  = (inr (map serialize_doc
            (List.filter (has_project p) (coll st (collection_name model)))),
     Some st).
Proof.
  unfold list_by_project. rewrite Hkind.
  unfold bind, db_is_None, get_documents, ret. simpl.
  destruct p as [|c p']; [done|]. by rewrite find_project_id.
Qed.

Lemma list_by_project_filtered_witness :
  list_by_project "deployments" (Some "000000000000000000000001") (Some sample_store)
  = (inr (map serialize_doc
            (List.filter (has_project "000000000000000000000001")
               (coll sample_store (collection_name Deployment)))),
     Some sample_store).
Proof.
  apply (list_by_project_filtered "deployments" Deployment); [reflexivity | discriminate].
Defined.

(** ** Health and the diagnostic *)

(** X22. [health] agrees with the write handlers: for every resource kind
    it answers "error" exactly when Update and Delete would raise
    500 "Database not available", and "ok" otherwise; it never raises and
    never touches [db]. *)
Theorem health_reflects_writes
    (resource : string) (model : Model) (item_id : string) (payload : dict)
    (db : handle)
    (Hkind : ModelMap_get resource ModelMap = Some model) :
  health db
    = (inr [("status",
             VStr (if signals_store_unavailable
                        (fst (update_item resource item_id payload db))
                   then "error" else "ok"))], db) /\
  signals_store_unavailable (fst (delete_item resource item_id db))
    = signals_store_unavailable (fst (update_item resource item_id payload db)).
Proof.
  destruct db as [st|].
  - rewrite (update_item_connected _ model), (delete_item_connected _ model) by done.
    destruct (ObjectId_of_str item_id) as [oid|]; [|done].
    destruct (update_first _ _ _), (delete_first _ _); done.
  - unfold update_item, delete_item. by rewrite Hkind.
Qed.

Lemma health_reflects_writes_witness :
  health None
    = (inr [("status",
             VStr (if signals_store_unavailable
                        (fst (update_item "tables" "000000000000000000000002"
                                sample_payload None))
                   then "error" else "ok"))], None) /\
  signals_store_unavailable
    (fst (delete_item "tables" "000000000000000000000002" None))
    = signals_store_unavailable
        (fst (update_item "tables" "000000000000000000000002" sample_payload None)).
Proof.
  apply (health_reflects_writes "tables" TableDef). reflexivity.
Defined.

(** X23. Whatever the environment, the state of [db] and the answer of the
    driver, [test_database] returns a response and does not touch [db]; the
    response has the same six fields in the same order; its
    [connection_status] is "Connected" exactly when [db] is not [None]; and
    its [collections] are at most 20 names, the first ones of the driver's
    answer, or none when there is no store or the driver fails. *)
Theorem test_database_response
    (getenv : string -> option string)
    (list_collection_names : Store -> string + list string) (db : handle) :
  exists response names,
    test_database getenv list_collection_names db = (inr response, db) /\
    keys response
      = ["backend"; "database"; "database_url"; "database_name";
         "connection_status"; "collections"] /\
    dict_get "connection_status" response
      = Some (VStr (match db with Some _ => "Connected" | None => "Not Connected" end)) /\
    dict_get "collections" response = Some (VList (map VStr names)) /\
    (length names <= 20)%nat /\
    names = match db with
            | Some st =>
                match list_collection_names st with
                | inr all => take 20 all
                | inl _ => []
                end
            | None => []
            end.
Proof.
  unfold test_database. destruct db as [st|].
  - destruct (list_collection_names st) as [e|all].
    + eexists _, []. repeat split; try reflexivity. simpl. lia.
    + eexists _, (take 20 all). repeat split; try reflexivity.
      rewrite length_take. lia.
  - eexists _, []. repeat split; try reflexivity. simpl. lia.
Qed.

(** The diagnostic on the sample store, with a driver that answers and with
    one that fails. *)
Example test_database_samples :
  fst (test_database sample_getenv sample_names (Some sample_store))
    = inr [ ("backend", VStr "✅ Running");
            ("database", VStr "✅ Connected & Working");
            ("database_url", VStr "✅ Set");
            ("database_name", VStr "❌ Not Set");
            ("connection_status", VStr "Connected");
            ("collections",
             VList (map VStr (take 20 (map fst (map_to_list (collections sample_store)))))) ] /\
  fst (test_database sample_getenv sample_driver_error (Some sample_store))
    = inr [ ("backend", VStr "✅ Running");
            ("database", VStr "⚠️  Connected but Error: connection refused");
            ("database_url", VStr "✅ Set");
            ("database_name", VStr "❌ Not Set");
            ("connection_status", VStr "Connected");
            ("collections", VList []) ].
Proof. split; reflexivity. Qed.

(** ** An instance validated again *)

Lemma validate_all_idem (f : value -> option value) (l l' : list value) :
  Forall (fun x => forall y, f x = Some y -> f y = Some y) l ->
  validate_all f l = Some l' -> validate_all f l' = Some l'.
Proof.
  intros Hf. revert l'. induction Hf as [|x r Hx Hr IH]; simpl; intros l' H.
  - by injection H as <-.
  - destruct (f x) as [y|] eqn:Hy; [|done].
    destruct (validate_all f r) as [r'|] eqn:Hr'; [|done].
    injection H as <-. simpl. by rewrite (Hx y), (IH r').
Qed.

Lemma validate_bool_idem (v v' : value) :
  validate_bool v = Some v' -> validate_bool v' = Some v'.
Proof.
  unfold validate_bool. intros H.
  repeat case_match; simplify_eq; done.
Qed.

Lemma validate_idem nested (t : ftype) :
  (forall m d d', nested m d = Some d' -> nested m d' = Some d') ->
  forall v v', validate nested t v = Some v' -> validate nested t v' = Some v'.
Proof.
  intros Hnested. induction t as [| | | | |choices|t IH|t IH| |m]; intros v v' H.
  - destruct v; simplify_eq/=; done.
  - by apply (validate_bool_idem v).
  - destruct v; simplify_eq/=; try done.
    destruct (int_of_float f); simplify_eq/=; done.
  - destruct v; simplify_eq/=; done.
  - by simplify_eq/=.
  - destruct v; simplify_eq/=.
    destruct (str_in s choices) eqn:Hs; simplify_eq/=. by rewrite Hs.
  - simpl in H. destruct v; simplify_eq/=; try done;
      (pose proof (IH _ _ H) as H'; destruct v'; done).
  - destruct v; simplify_eq/=.
    destruct (validate_all (validate nested t) l) as [l'|] eqn:Hl; simplify_eq/=.
    rewrite (validate_all_idem _ l l'); [done| |done].
    apply Forall_forall. intros x _ y. apply IH.
  - destruct v; simplify_eq/=; done.
  - destruct v; simplify_eq/=.
    destruct (nested m d) as [d'|] eqn:Hd; simplify_eq/=.
    by rewrite (Hnested m d d').
Qed.

Lemma construct_fields_idem nested (fs : list Field) (kwargs d : dict) :
  (forall m d d', nested m d = Some d' -> nested m d' = Some d') ->
  NoDup (map field_name fs) ->
  Forall (fun f => forall dv, field_default f = Some dv ->
                              validate nested (annotation f) dv = Some dv) fs ->
  construct_fields nested fs kwargs = inr d ->
  construct_fields nested fs d = inr d.
Proof.
  intros Hnested. revert d.
  induction fs as [|f r IH]; simpl; intros d Hnd Hdef H; [done|].
  apply NoDup_cons in Hnd as [Hf Hnd].
  apply Forall_cons in Hdef as [Hdf Hdef].
  destruct (match dict_get (field_name f) kwargs with
            | Some v => validate nested (annotation f) v
            | None => field_default f
            end) as [v|] eqn:Hv; [|done].
  destruct (construct_fields nested r kwargs) as [e|d'] eqn:Hr; [done|].
  injection H as <-. simpl. rewrite String.eqb_refl.
  assert (Hvv : validate nested (annotation f) v = Some v).
  { destruct (dict_get (field_name f) kwargs) as [v0|].
    - by apply (validate_idem nested _ Hnested v0).
    - by apply Hdf. }
  rewrite Hvv.
  rewrite (construct_fields_ext nested r _ d').
  - by rewrite (IH d').
  - intros g Hg. simpl.
    destruct (String.eqb_spec (field_name g) (field_name f)) as [Heq|_]; [|done].
    destruct Hf. rewrite <- Heq. by apply list_elem_of_fmap_2.
Qed.

(** Every declared default fits the annotation of its field. *)
Lemma defaults_validate nested (m : Model) :
  Forall (fun f => forall dv, field_default f = Some dv ->
                              validate nested (annotation f) dv = Some dv)
         (model_fields m).
Proof.
  destruct m; simpl; repeat constructor; simpl; intros dv H;
    try discriminate; by injection H as <-.
Qed.

Lemma construct_nested_idem (m : Model) (d d' : dict) :
  construct_nested m d = Some d' -> construct_nested m d' = Some d'.
Proof.
  unfold construct_nested. intros H.
  destruct (construct_fields no_nested (model_fields m) d) as [e|d0] eqn:Hd;
    [done|]. injection H as ->.
  rewrite (construct_fields_idem no_nested _ d d'); try done.
  - apply model_fields_NoDup.
  - apply defaults_validate.
Qed.

(** X24. An instance passes validation again and comes out the same: for
    every model, building the model from the fields of an instance it built
    succeeds and gives that instance back.  In particular every default
    declared in schemas.py fits the annotation of its field. *)
Theorem construct_again (m : Model) (kwargs obj : dict)
    (Hobj : construct m kwargs = inr obj) :
  construct m obj = inr obj.
Proof.
  apply (construct_fields_idem construct_nested _ kwargs); try done.
  - apply construct_nested_idem.
  - apply model_fields_NoDup.
  - apply defaults_validate.
Qed.

Lemma construct_again_witness :
  construct TableDef sample_new_table_instance = inr sample_new_table_instance.
Proof. apply (construct_again TableDef sample_new_table). reflexivity. Defined.
